(** * Gaffer: API keys, the key store and the configuration loader

    A shallow embedding of [gaffer/gafferd/keys.py] (classes [Key],
    [KeyManager], [SqliteKeyBackend]) and of [Server.get_config] in
    [gaffer/gafferd.py], followed by the properties of the design
    document that concern them.

    Python values are modelled by small inductive types, dictionaries by
    stdpp's [gmap], exceptions by an error type, and objects that are
    mutated in place (the key manager, the module level default
    dictionaries) by explicit state passing.

    The code is read as a Python 3 interpreter runs it, with the standard
    library of Python 3: a name that a module neither binds nor imports
    raises [NameError] when it is evaluated, an attribute that an object
    lacks raises [AttributeError], and a call with a keyword that the
    callee does not accept raises [TypeError]. *)

From Stdlib Require Import String Ascii ZArith.
From stdpp Require Import gmap strings list pretty.

Open Scope string_scope.

(** ** Python values, exceptions and string operations *)

Module Py.

(** The exceptions the modelled code can raise.  The first four are the
    classes defined at the top of [keys.py]; the others are raised by the
    interpreter itself. *)
Inductive exn : Type :=
| KeyNotFound
| KeyConflict
| InvalidKey
| UnknownPermission
| NameError (name : string)
| AttributeError (attr : string)
| KeyError (key : string)
| IndexError
| TypeError
| ValueError
| AssertionError.

Inductive result (A : Type) : Type :=
| Ok (a : A)
| Raise (e : exn).
Arguments Ok {A} a.
Arguments Raise {A} e.

#[global] Instance result_ret : MRet result := @Ok.
#[global] Instance result_bind : MBind result :=
  fun A B f m => match m with Ok a => f a | Raise e => Raise e end.

(** Values found inside a key object: JSON scalars, a list of strings (a
    list of scopes) and [VOpaque] for an object that is no container
    (a bound method, a class). *)
Inductive pyval : Type :=
| VNone
| VBool (b : bool)
| VStr (s : string)
| VList (l : list string)
| VOpaque.

(** A value or a dictionary of values. *)
Inductive pyobj : Type :=
| OVal (v : pyval)
| ODict (d : gmap string pyval).

#[global] Instance pyval_eq_dec : EqDecision pyval.
Proof. solve_decision. Defined.
#[global] Instance pyobj_eq_dec : EqDecision pyobj.
Proof. solve_decision. Defined.
#[global] Instance exn_eq_dec : EqDecision exn.
Proof. solve_decision. Defined.
#[global] Instance result_eq_dec {A} `{EqDecision A} : EqDecision (result A).
Proof. solve_decision. Defined.

(** Truth value of an object, as [if x] and [x or y] test it. *)
Definition truthy (v : pyval) : bool :=
  match v with
  | VNone => false
  | VBool b => b
  | VStr s => negb (String.eqb s "")
  | VList l => match l with [] => false | _ => true end
  | VOpaque => true
  end.

Definition truthy_obj (o : pyobj) : bool :=
  match o with
  | OVal v => truthy v
  | ODict d => negb (bool_decide (d = ∅))
  end.

(** [sub in s] on strings. *)
Definition contains (sub s : string) : bool :=
  match String.index 0 sub s with Some _ => true | None => false end.

(** [x in c]: key membership for a dictionary, element membership for a
    list, substring test for a string, [TypeError] otherwise. *)
Definition py_in (x : string) (c : pyobj) : result bool :=
  match c with
  | ODict d => Ok (bool_decide (is_Some (d !! x)))
  | OVal (VList l) => Ok (bool_decide (x ∈ l))
  | OVal (VStr s) => Ok (contains x s)
  | OVal _ => Raise TypeError
  end.

(** [s.split(c)] for a one character separator. *)
Fixpoint split_chr (c : ascii) (s : string) : list string :=
  match s with
  | EmptyString => [EmptyString]
  | String a s' =>
      if Ascii.eqb a c then EmptyString :: split_chr c s'
      else match split_chr c s' with
           | x :: xs => String a x :: xs
           | [] => [String a EmptyString]
           end
  end.

(** [s.split(sep, 1)] for a non-empty separator. *)
Definition split1 (sep s : string) : list string :=
  match String.index 0 sep s with
  | Some i =>
      [String.substring 0 i s;
       String.substring (i + String.length sep)
         (String.length s - (i + String.length sep)) s]
  | None => [s]
  end.

(** [l[i]] *)
Definition item {A : Type} (l : list A) (i : nat) : result A :=
  match l !! i with Some x => Ok x | None => Raise IndexError end.

End Py.
Import Py.

(** ** [class Key] *)

Module Key.

(** The attributes [Key.__init__] sets on the instance. *)
Record t : Type := mk {
  api_key : pyobj;
  label : pyobj;
  permissions : gmap string pyval;
  manage : pyobj;
  write : pyobj;
  read : pyobj;
  can_manage_all : bool;
  can_write_all : bool;
  can_read_all : bool
}.

(** [permissions.get(name, None) or {}] *)
Definition get_or_empty (permissions : gmap string pyval) (name : string) : pyobj :=
  match permissions !! name with
  | Some v => if truthy v then OVal v else ODict ∅
  | None => ODict ∅
  end.

(** [Key.__init__].  [permissions] must answer [get], so it is a
    dictionary.  Line 39 of the source reads the ['write'] entry into
    [self.read]. *)
Definition __init__ (api_key label permissions : pyobj) : result t :=
  match permissions with
  | OVal _ => Raise (AttributeError "get")
  | ODict perms =>
      let manage := get_or_empty perms "manage" in
      let write := get_or_empty perms "write" in
      let read := get_or_empty perms "write" in
      can_manage_all ← py_in "*" manage;
      can_write_all ← py_in "*" write;
      can_read_all ← py_in "*" read;
      Ok (mk api_key label perms manage write read
             can_manage_all can_write_all can_read_all)
  end.

(** [Key.load] *)
Definition load (obj : gmap string pyobj) : result t :=
  match obj !! "key" with
  | None => Raise InvalidKey
  | Some key =>
      let label := default (OVal (VStr "")) (obj !! "label") in
      let permissions := default (ODict ∅) (obj !! "permissions") in
      __init__ key label permissions
  end.

(** [Key.dump] *)
Definition dump (k : t) : gmap string pyobj :=
  <["key" := api_key k]>
    (<["label" := label k]>
       (<["permissions" := ODict (permissions k)]> ∅)).

(** [Key.is_superuser], [Key.can_create_key], [Key.can_create_user] *)
Definition is_superuser (k : t) : pyval :=
  default (VBool false) (permissions k !! "superuser").
Definition can_create_key (k : t) : pyval :=
  default (VBool false) (permissions k !! "create_key").
Definition can_create_user (k : t) : pyval :=
  default (VBool false) (permissions k !! "create_user").

(** The instance dictionary of a key. *)
Definition instance_dict (k : t) : gmap string pyobj :=
  list_to_map
    [("api_key", api_key k); ("label", label k);
     ("permissions", ODict (permissions k));
     ("manage", manage k); ("write", write k); ("read", read k);
     ("can_manage_all", OVal (VBool (can_manage_all k)));
     ("can_write_all", OVal (VBool (can_write_all k)));
     ("can_read_all", OVal (VBool (can_read_all k)))].

Definition instance_attrs : list string :=
  ["api_key"; "label"; "permissions"; "manage"; "write"; "read";
   "can_manage_all"; "can_write_all"; "can_read_all"].

(** The names bound in the body of [class Key]; looked up on an
    instance they give bound methods. *)
Definition class_attrs : list string :=
  ["__init__"; "__str__"; "load"; "dump"; "is_superuser";
   "can_create_key"; "can_create_user"; "can_manage"; "can_write";
   "can_read"; "can"].

Section Attributes.

(** The attributes every instance inherits from [object] (such as
    [__class__] or [__doc__]) are the interpreter's; they are a
    parameter of the model.  Their names all begin with two
    underscores, and no other name is looked up there. *)
Variable inherited : string -> option pyobj.

Definition getattr (k : t) (name : string) : option pyobj :=
  match instance_dict k !! name with
  | Some v => Some v
  | None =>
      if bool_decide (name ∈ class_attrs) then Some (OVal VOpaque)
      else if String.prefix "__" name then inherited name
      else None
  end.

Definition hasattr (k : t) (name : string) : bool :=
  match getattr k name with Some _ => true | None => false end.

(** [Key.can] *)
Definition can (k : t) (permission what : string) : result bool :=
  if negb (hasattr k permission) then Raise UnknownPermission
  else if truthy_obj (default (OVal (VBool false))
                        (getattr k (permission ++ "_all")))
  then Ok true
  else
    let permissions := default (ODict ∅) (getattr k permission) in
    on_session ←
      (if contains "." what then
         session ← item (split_chr "." what) 0;
         py_in session permissions
       else Ok false);
    if (on_session : bool) then Ok true
    else
      on_job ← py_in what (default (ODict ∅) (getattr k permission));
      if (on_job : bool) then Ok true else Ok false.

(** [Key.can_manage], [Key.can_write], [Key.can_read] *)
Definition can_manage (k : t) (job_or_session : string) : result bool :=
  can k "manage" job_or_session.

Definition can_write (k : t) (job_or_session : string) : result bool :=
  m ← can_manage k job_or_session;
  if (m : bool) then Ok true else can k "write" job_or_session.

Definition can_read (k : t) (job_or_session : string) : result bool :=
  w ← can_write k job_or_session;
  if (w : bool) then Ok true else can k "read" job_or_session.

End Attributes.

End Key.

(** ** State and exceptions

    A method that mutates [self] is a function from the object's state to a
    result and the state it leaves.  An exception keeps the mutations made
    before it was raised. *)

Module State.

Definition M (S A : Type) : Type := S -> result A * S.

#[global] Instance M_ret {S} : MRet (M S) := fun A a s => (Ok a, s).
#[global] Instance M_bind {S} : MBind (M S) :=
  fun A B f m s =>
    match m s with
    | (Ok a, s') => f a s'
    | (Raise e, s') => (Raise e, s')
    end.

Definition raise {S A} (e : exn) : M S A := fun s => (Raise e, s).
Definition gets {S A} (f : S -> A) : M S A := fun s => (Ok (f s), s).
Definition modify {S} (f : S -> S) : M S unit := fun s => (Ok tt, f s).
Definition when {S} (b : bool) (m : M S unit) : M S unit :=
  if b then m else mret tt.

(** [for x in l: body(x)] *)
Fixpoint for_each {S A} (l : list A) (body : A -> M S unit) : M S unit :=
  match l with
  | [] => mret tt
  | x :: l' => body x ;; for_each l' body
  end.

(** A loop that updates a local variable [acc]. *)
Fixpoint for_fold {S A B} (l : list A) (acc : B) (body : B -> A -> M S B) : M S B :=
  match l with
  | [] => mret acc
  | x :: l' => acc' ← body acc x; for_fold l' acc' body
  end.

Definition lift {S A} (r : result A) : M S A := fun s => (r, s).

End State.
Import State.

(** ** [class SqliteKeyBackend]

    The connection holds one table, [keys (key text primary key, data text,
    parent text)]; the [data] column holds text.  The module imports
    [deque], [sqlite3], [EventEmitter] and [load_backend] and binds no name
    [json]: the two places that convert between a dictionary and its JSON
    text, [json.dumps] in [set_key] and [json.loads] in [_make_key], raise
    [NameError] when they are reached.  The state of a backend is taken as
    given: [conn] is [None], or a connection to a database with that
    table. *)

Module SqliteKeyBackend.

Record row : Type := Row {
  data : string;
  parent : option string
}.

(** [self.conn]: [None] until [open] has run. *)
Record t : Type := mk {
  conn : option (gmap string row)
}.

(** The [data] argument of [set_key]: a dictionary, or the text to store. *)
Inductive data_arg : Type :=
| DataDict (d : gmap string pyobj)
| DataText (s : string).

#[global] Instance row_eq_dec : EqDecision row.
Proof. solve_decision. Defined.
#[global] Instance t_eq_dec : EqDecision t.
Proof. solve_decision. Defined.

(** [assert self.conn is not None] *)
Definition the_conn : M t (gmap string row) :=
  fun b => match conn b with
           | Some keys => (Ok keys, b)
           | None => (Raise AssertionError, b)
           end.

(** [json.dumps(data)] and [json.loads(text)]: the name [json] is looked
    up first, and it is bound neither in the module nor among the
    builtins. *)
Definition json_dumps (d : gmap string pyobj) : result string :=
  Raise (NameError "json").
Definition json_loads (text : string) : result (gmap string pyobj) :=
  Raise (NameError "json").

(** [_make_key]: the decoded data with its ["key"] entry set. *)
Definition _make_key (key : string) (r : row) : result (gmap string pyobj) :=
  obj ← json_loads (data r);
  Ok (<["key" := OVal (VStr key)]> obj).

(** [set_key]: a dictionary is first turned into text.  The INSERT
    violates the primary key when the key is present; the handler of
    [sqlite3.IntegrityError] then evaluates [raise UserConflict()], and no
    name [UserConflict] is bound in the module (the class defined there is
    [KeyConflict]). *)
Definition set_key (key : string) (data : data_arg)
    (parent : option string) : M t unit :=
  keys ← the_conn;
  text ← lift (match data with
               | DataDict d => json_dumps d
               | DataText s => Ok s
               end);
  match keys !! key with
  | Some _ => raise (NameError "UserConflict")
  | None => modify (fun _ => mk (Some (<[key := Row text parent]> keys)))
  end.

(** [get_key] *)
Definition get_key (key : string) : M t (gmap string pyobj) :=
  keys ← the_conn;
  match keys !! key with
  | None => raise KeyNotFound
  | Some r => lift (_make_key key r)
  end.

(** [delete_key]: [DELETE FROM keys WHERE key=?] *)
Definition delete_key (key : string) : M t unit :=
  keys ← the_conn;
  modify (fun _ => mk (Some (delete key keys))).

(** [has_key]: [get_key] with [KeyNotFound] caught, and nothing else. *)
Definition has_key (key : string) : M t bool :=
  fun b =>
    match get_key key b with
    | (Ok _, b') => (Ok true, b')
    | (Raise KeyNotFound, b') => (Ok false, b')
    | (Raise e, b') => (Raise e, b')
    end.

(** The keys of the rows selected by [WHERE parent=?]. *)
Definition select_children (key : string) (keys : gmap string row) : list string :=
  (map_to_list (filter (fun kr => parent kr.2 = Some key) keys)).*1.

End SqliteKeyBackend.

(** ** [class KeyManager] *)

Module KeyManager.

(** [_cache] is a dictionary, [_entries] a deque of keys, oldest first.
    [_emitter] is the list of the events the event emitter has been
    given. *)
Record t : Type := mk {
  _cache : gmap string (gmap string pyobj);
  _entries : list string;
  _backend : SqliteKeyBackend.t;
  _emitter : list (string * string)
}.

#[global] Instance manager_eq_dec : EqDecision t.
Proof. solve_decision. Defined.

Definition set_cache (f : gmap string (gmap string pyobj) -> gmap string (gmap string pyobj)) : M t unit :=
  modify (fun m => mk (f (_cache m)) (_entries m) (_backend m) (_emitter m)).
Definition set_entries (f : list string -> list string) : M t unit :=
  modify (fun m => mk (_cache m) (f (_entries m)) (_backend m) (_emitter m)).

(** A call of a method of [self._backend]. *)
Definition on_backend {A} (op : M SqliteKeyBackend.t A) : M t A :=
  fun m =>
    match op (_backend m) with
    | (r, b') => (r, mk (_cache m) (_entries m) b' (_emitter m))
    end.

(** Modelled from the spec: the event emitter, whose class is defined in
    another module of the package, has the operations [subscribe],
    [unsubscribe], [publish] and [close].  [publlish], the name the key
    manager calls, is none of them, so the attribute lookup in
    [self._emitter.publlish(event, self, key)] raises [AttributeError] and
    no event is delivered. *)
Definition publlish (event key : string) : M t unit :=
  raise (AttributeError "publlish").

(** [self._entries.popleft()] *)
Definition entries_popleft : M t string :=
  entries ← gets _entries;
  match entries with
  | [] => raise IndexError
  | x :: rest => set_entries (fun _ => rest) ;; mret x
  end.

(** [self._entries.remove(key)]: the first occurrence. *)
Fixpoint remove_first (key : string) (l : list string) : option (list string) :=
  match l with
  | [] => None
  | x :: l' =>
      if String.eqb x key then Some l'
      else cons x <$> remove_first key l'
  end.

Definition entries_remove (key : string) : M t unit :=
  entries ← gets _entries;
  match remove_first key entries with
  | Some l => set_entries (fun _ => l)
  | None => raise ValueError
  end.

(** [self._cache.pop(key)], without a default. *)
Definition cache_pop (key : string) : M t (gmap string pyobj) :=
  cache ← gets _cache;
  match cache !! key with
  | Some o => set_cache (delete key) ;; mret o
  | None => raise (KeyError key)
  end.

(** [set_key] *)
Definition set_key (key : string) (data : SqliteKeyBackend.data_arg)
    (parent : option string) : M t unit :=
  on_backend (SqliteKeyBackend.set_key key data parent) ;;
  publlish "set" key.

(** The statements of [get_key] that follow the call of the backend:
    the cache is cleaned when it holds 1000 entries or more, then [okey] is
    entered. *)
Definition cache_insert (key : string) (okey : gmap string pyobj) : M t unit :=
  cache ← gets _cache;
  when (bool_decide (1000 <= size cache)%nat)
    (last ← entries_popleft;
     _ ← cache_pop key;
     mret tt) ;;
  set_cache <[key := okey]> ;;
  set_entries (fun l => (l ++ [key])%list).

(** [get_key] *)
Definition get_key (key : string) : M t (gmap string pyobj) :=
  cache ← gets _cache;
  match cache !! key with
  | Some o => mret o
  | None =>
      okey ← on_backend (SqliteKeyBackend.get_key key);
      cache_insert key okey ;;
      mret okey
  end.

(** [_delete_entry] *)
Definition _delete_entry (key : string) : M t unit :=
  cache ← gets _cache;
  match cache !! key with
  | Some _ => entries_remove key ;; _ ← cache_pop key; mret tt
  | None => mret tt
  end.

(** [self.conn] on a key manager: [__init__] sets [loop], [cfg],
    [_cache], [_entries], [_lock], [_backend] and [_emitter], and the class
    defines no [conn], so the lookup raises [AttributeError]. *)
Definition self_conn : M t (gmap string SqliteKeyBackend.row) :=
  raise (AttributeError "conn").

(** [delete_key] *)
Definition delete_key (key : string) : M t unit :=
  _delete_entry key ;;
  keys ← self_conn;
  for_each (SqliteKeyBackend.select_children key keys) _delete_entry ;;
  on_backend (SqliteKeyBackend.delete_key key) ;;
  publlish "delete" key.

(** [has_key] *)
Definition has_key (key : string) : M t bool :=
  on_backend (SqliteKeyBackend.has_key key).

End KeyManager.

(** ** [Server.get_config] in [gafferd.py]

    The configuration is the state of the parser after [read_config]: the
    sections in file order, each with its options in file order.  The
    parser ends the name of an option at the first [=] or [:] of its line,
    so a line [env:FOO = 1] is the option [env] with the value [FOO = 1].
    The two dictionaries nested in [ENDPOINT_DEFAULTS] and
    [PROCESS_DEFAULTS] are objects created once, when the module is loaded;
    they live in a heap and the defaults hold references to them.  The
    [DEFAULT] section is taken to be empty. *)

Module Gafferd.

Definition loc : Type := nat.
Definition heap : Type := gmap loc (gmap string string).
Definition config : Type := list (string * list (string * string)).

(** The object behind [ssl_options = {}] and the one behind [env = {}]. *)
Definition ssl_options_loc : loc := 0.
Definition env_loc : loc := 1.
Definition module_heap : heap := <[ssl_options_loc := ∅]> (<[env_loc := ∅]> ∅).

(** A dictionary with the keys of [ENDPOINT_DEFAULTS]. *)
Record endpoint_kwargs : Type := EndpointKwargs {
  uri : option string;
  backlog : Z;
  ssl_options : option loc
}.

Definition ENDPOINT_DEFAULTS : endpoint_kwargs :=
  {| uri := None; backlog := 128; ssl_options := Some ssl_options_loc |}.

(** A dictionary with the keys of [PROCESS_DEFAULTS]. *)
Record process_params : Type := ProcessParams {
  group : option string;
  args : option string;
  env : loc;
  uid : option string;
  gid : option string;
  cwd : option string;
  detach : bool;
  numprocesses : Z;
  start : bool
}.

Definition PROCESS_DEFAULTS : process_params :=
  {| group := None; args := None; env := env_loc; uid := None; gid := None;
     cwd := None; detach := false; numprocesses := 1; start := true |}.

(** [d.copy()] copies the entries of [d], not the objects they refer to. *)
Definition copy {A : Type} (d : A) : A := d.

(** The value of the local variable [kwargs]: the copied dictionary,
    or the integer that the [backlog] branch binds to the same name. *)
Inductive kwargs_val : Type :=
| KwDict (d : endpoint_kwargs)
| KwInt (z : Z).

(** What is passed to [HttpEndpoint], a class of another module. *)
Record HttpEndpoint : Type := Endpoint {
  ep_uri : string;
  ep_backlog : option Z;
  ep_ssl_options : option (option loc)
}.

Inductive controller : Type :=
| SigHandler
| HttpHandler (endpoints : list HttpEndpoint).

(** An argument of [os.path.join]. *)
Inductive path_arg : Type :=
| PStr (s : string)
| PList (l : list string).

(** [os.path.join(a, *p)] of [posixpath]: every argument has to be a
    path string. *)
Definition join2 (path b : string) : string :=
  if String.prefix "/" b then b
  else if String.eqb path "" then b
  else if String.eqb (String.substring (String.length path - 1) 1 path) "/"
  then path ++ b
  else path ++ "/" ++ b.

Fixpoint join_all (path : string) (p : list path_arg) : result string :=
  match p with
  | [] => Ok path
  | PStr b :: p' => join_all (join2 path b) p'
  | PList _ :: _ => Raise TypeError
  end.

Definition os_path_join (a : path_arg) (p : list path_arg) : result string :=
  match a with
  | PStr s => join_all s p
  | PList _ => Raise TypeError
  end.

(** [d[key]] on an association list. *)
Definition assoc {A : Type} (key : string) (l : list (string * A)) : option A :=
  snd <$> List.find (fun kv => String.eqb (fst kv) key) l.

(** [params['env'][envname] = val], [kwargs['ssl_options'][key] = val]:
    an item assignment through a reference. *)
Definition store_item (l : loc) (key val : string) : M heap unit :=
  modify (alter (<[key := val]>) l).

(** The options the parser holds for a section, and the text it holds for
    one of them ([default] when there is none). *)
Definition options (cfg : config) (section : string) : list (string * string) :=
  default [] (assoc section cfg).

Definition stored (cfg : config) (section option : string) (default : string) : string :=
  match assoc option (options cfg section) with
  | Some v => v
  | None => default
  end.

(** Whether a name can be the name of an option: the parser ends the name
    at the first [=] or [:]. *)
Definition option_name_ok (name : string) : bool :=
  negb (contains ":" name) && negb (contains "=" name).

Section GetConfig.

(** [int(value)] and the parser's reading of a boolean, each of which
    may raise, and [tempfile.gettempdir()]. *)
Variable to_int : string -> result Z.
Variable to_boolean : string -> result bool.
Variable tempdir : string.

(** *** [class DefaultConfigParser]

    The class overrides [get] with the signature
    [get(self, section, option, default=None)].  The methods of
    [configparser.ConfigParser] that it inherits or calls through [super()]
    call [self.get] themselves, with keyword arguments. *)

Definition has_option (cfg : config) (section option : string) : bool :=
  match assoc section cfg with
  | Some items => match assoc option items with Some _ => true | None => false end
  | None => false
  end.

(** A call [parser.get(section, option, raw=..., fallback=...)] or
    [self.get(section, option, raw=..., vars=...)] made by the standard
    library: [get] is the override, which has no parameter [raw], [vars] or
    [fallback]. *)
Definition get_with_keywords (cfg : config) (section option : string) : result string :=
  Raise TypeError.

(** The interpolation of the value of an option, [before_get] of
    [BasicInterpolation]: its first statement reads the raw value back with
    [parser.get(section, option, raw=True, fallback=rest)]. *)
Definition before_get (cfg : config) (section option value : string) : result string :=
  rawval ← get_with_keywords cfg section option;
  Ok value.

(** [ConfigParser.get(self, section, option)], reached through [super()]
    for an option that is present: the stored value, interpolated. *)
Definition super_get (cfg : config) (section option : string) : result string :=
  before_get cfg section option (stored cfg section option "").

(** [DefaultConfigParser.get] *)
Definition get (cfg : config) (section option : string) (default : string) : result string :=
  if negb (has_option cfg section option) then Ok default
  else super_get cfg section option.

(** [DefaultConfigParser.getint]: [self._get(section, int, option)] is
    [int(self.get(section, option))]. *)
Definition getint (cfg : config) (section option : string) (default : Z) : result Z :=
  if negb (has_option cfg section option) then Ok default
  else v ← get cfg section option ""; to_int v.

(** [DefaultConfigParser.getboolean]: [ConfigParser.getboolean] passes
    [raw] and [vars] on to [self.get]. *)
Definition getboolean (cfg : config) (section option : string) (default : bool) : result bool :=
  if negb (has_option cfg section option) then Ok default
  else v ← get_with_keywords cfg section option; to_boolean v.

(** [cfg.items(section)]: each option with its interpolated value. *)
Fixpoint interpolated (cfg : config) (section : string) (opts : list (string * string))
    : result (list (string * string)) :=
  match opts with
  | [] => Ok []
  | (option, value) :: rest =>
      v ← before_get cfg section option value;
      l ← interpolated cfg section rest;
      Ok ((option, v) :: l)
  end.

Definition items (cfg : config) (section : string) : result (list (string * string)) :=
  interpolated cfg section (options cfg section).

(** *** [get_config] *)

(** The body of the loop over the items of an [endpoint:] section. *)
Definition endpoint_item (cfg : config) (section : string)
    (kwargs : kwargs_val) (kv : string * string) : M heap kwargs_val :=
  let '(key, val) := kv in
  if String.eqb key "bind" then
    match kwargs with
    | KwDict d => mret (KwDict (EndpointKwargs (Some val) (backlog d) (ssl_options d)))
    | KwInt _ => raise TypeError
    end
  else if String.eqb key "backlog" then
    z ← lift (getint cfg section key 128);
    mret (KwInt z)
  else if String.eqb key "certfile" || String.eqb key "keyfile" then
    match kwargs with
    | KwDict d =>
        match ssl_options d with
        | Some l => store_item l key val ;; mret kwargs
        | None => raise TypeError
        end
    | KwInt _ => raise TypeError
    end
  else mret kwargs.

(** An [endpoint:] section whose name is listed in [http_endpoints]. *)
Definition endpoint_section (cfg : config) (section : string)
    (endpoints : list HttpEndpoint) : M heap (list HttpEndpoint) :=
  section_items ← lift (items cfg section);
  kwargs ← for_fold section_items (KwDict (copy ENDPOINT_DEFAULTS))
             (endpoint_item cfg section);
  match kwargs with
  | KwInt _ => raise TypeError
  | KwDict d =>
      h ← gets (fun h : heap => h);
      let empty_ssl :=
        match ssl_options d with
        | Some l => bool_decide (default ∅ (h !! l) = ∅)
        | None => true
        end in
      let d := if empty_ssl then EndpointKwargs (uri d) (backlog d) None else d in
      match uri d with
      | Some u =>
          mret (endpoints ++ [Endpoint u (Some (backlog d)) (Some (ssl_options d))])%list
      | None => mret endpoints
      end
  end.

(** The body of the loop over the items of a [process:] section. *)
Definition process_item (cfg : config) (section : string)
    (params : process_params) (kv : string * string) : M heap process_params :=
  let '(key, val) := kv in
  let '(ProcessParams g a e u gi c d n st) := params in
  if String.eqb key "group" then mret (ProcessParams (Some val) a e u gi c d n st)
  else if String.eqb key "args" then mret (ProcessParams g (Some val) e u gi c d n st)
  else if String.prefix "env:" key then
    envname ← lift (item (split1 "env:" key) 1);
    store_item e envname val ;;
    mret params
  else if String.eqb key "uid" then mret (ProcessParams g a e (Some val) gi c d n st)
  else if String.eqb key "gid" then mret (ProcessParams g a e u (Some val) c d n st)
  else if String.eqb key "cwd" then mret (ProcessParams g a e u gi (Some val) d n st)
  else if String.eqb key "detach" then
    b ← lift (getboolean cfg section key false);
    mret (ProcessParams g a e u gi c b n st)
  else if String.eqb key "numprocesses" then
    z ← lift (getint cfg section key 1);
    mret (ProcessParams g a e u gi c d z st)
  else if String.eqb key "start" then
    b ← lift (getboolean cfg section key true);
    mret (ProcessParams g a e u gi c d n b)
  else mret params.

(** The loop over [cfg.sections()]; the local variables [endpoints]
    and [processes] are the accumulator. *)
Definition section_step (cfg : config) (endpoints_names : list string)
    (acc : list HttpEndpoint * list (string * string * process_params))
    (section : string)
    : M heap (list HttpEndpoint * list (string * string * process_params)) :=
  let '(endpoints, processes) := acc in
  if String.prefix "endpoint:" section then
    name ← lift (item (split1 "endpoint:" section) 1);
    if bool_decide (name ∈ endpoints_names) then
      endpoints' ← endpoint_section cfg section endpoints;
      mret (endpoints', processes)
    else mret acc
  else if String.prefix "process:" section then
    name ← lift (item (split1 "process:" section) 1);
    cmd ← lift (get cfg section "cmd" "");
    if negb (String.eqb cmd "") then
      section_items ← lift (items cfg section);
      params ← for_fold section_items (copy PROCESS_DEFAULTS)
                 (process_item cfg section);
      mret (endpoints, (processes ++ [(name, cmd, params)])%list)
    else mret acc
  else mret acc.

(** [get_config], from the configuration [read_config] returned. *)
Definition get_config (cfg : config)
    : M heap (list controller * list (string * string * process_params)) :=
  endpoints_str ← lift (get cfg "gaffer" "http_endpoints" "");
  let endpoints_names := split_chr "," endpoints_str in
  '(endpoints, processes) ← for_fold (cfg.*1) ([], []) (section_step cfg endpoints_names);
  endpoints ←
    match endpoints with
    | [] =>
        path ← lift (os_path_join (PList [tempdir; "gaffer.sock"]) []);
        mret [Endpoint ("unix:" ++ path) None None]
    | _ => mret endpoints
    end;
  mret ([SigHandler; HttpHandler endpoints], processes).

End GetConfig.

End Gafferd.

(** ** Definitions used in the statements *)

Module Examples.

(** The part of [Key.can] that follows the two attribute tests. *)
Definition scope_test (set : pyobj) (what : string) : result bool :=
  on_session ←
    (if contains "." what then
       session ← item (split_chr "." what) 0;
       py_in session set
     else Ok false);
  if (on_session : bool) then Ok true
  else on_job ← py_in what set; if (on_job : bool) then Ok true else Ok false.

(** An interpreter whose [object] has no attribute at all. *)
Definition no_inherited : string -> option pyobj := fun _ => None.

(** [Key("su", "", {"superuser": True})] *)
Definition key_superuser : Key.t :=
  Key.mk (OVal (VStr "su")) (OVal (VStr "")) (<["superuser" := VBool true]> ∅)
    (ODict ∅) (ODict ∅) (ODict ∅) false false false.

(** [Key("r", "", {"read": ["web", "*"]})] *)
Definition key_read_web : Key.t :=
  Key.mk (OVal (VStr "r")) (OVal (VStr "")) (<["read" := VList ["web"; "*"]]> ∅)
    (ODict ∅) (ODict ∅) (ODict ∅) false false false.

(** [Key("m", "", {"manage": ["web"]})] *)
Definition key_manage_web : Key.t :=
  Key.mk (OVal (VStr "m")) (OVal (VStr "")) (<["manage" := VList ["web"]]> ∅)
    (OVal (VList ["web"])) (ODict ∅) (ODict ∅) false false false.

(** [Key("w", "", {"write": ["*"]})] *)
Definition key_write_all : Key.t :=
  Key.mk (OVal (VStr "w")) (OVal (VStr "")) (<["write" := VList ["*"]]> ∅)
    (ODict ∅) (OVal (VList ["*"])) (OVal (VList ["*"])) false true true.

(** The data of a key without permissions, as a dictionary, and the JSON
    text of an empty dictionary. *)
Definition key_data : gmap string pyobj :=
  <["label" := OVal (VStr "")]> (<["permissions" := ODict ∅]> ∅).

Definition key_text : string := "{}".

(** The state a call leaves behind, whether it returned or raised. *)
Definition after {S A} (c : M S A) (s : S) : S := (c s).2.

(** A backend that has just been opened on an empty database. *)
Definition empty_backend : SqliteKeyBackend.t := SqliteKeyBackend.mk (Some ∅).

(** A key, its child and its grandchild, stored as text through the
    backend's [set_key], and a key manager on that backend. *)
Definition family_backend : SqliteKeyBackend.t :=
  after (SqliteKeyBackend.set_key "grand" (SqliteKeyBackend.DataText key_text) (Some "child1"))
    (after (SqliteKeyBackend.set_key "child1" (SqliteKeyBackend.DataText key_text) (Some "root"))
       (after (SqliteKeyBackend.set_key "root" (SqliteKeyBackend.DataText key_text) None)
          empty_backend)).

Definition family : KeyManager.t := KeyManager.mk ∅ [] family_backend [].

(** The table of that manager. *)
Definition family_keys : gmap string SqliteKeyBackend.row :=
  default ∅ (SqliteKeyBackend.conn family_backend).

(** The manager after [delete_key("root")]. *)
Definition family_deleted : KeyManager.t :=
  after (KeyManager.delete_key "root") family.

(** A key manager on the same backend whose cache holds an object for
    the root and one for the child. *)
Definition key_object (key : string) : gmap string pyobj :=
  <["key" := OVal (VStr key)]> key_data.

Definition cached_family : KeyManager.t :=
  KeyManager.mk (<["root" := key_object "root"]> (<["child1" := key_object "child1"]> ∅))
    ["root"; "child1"] family_backend [].

(** The keys ["0"], ["1"], ..., one for each number below [n]. *)
Definition numbered (n : nat) : list string := pretty <$> seq 0 n.

(** A table with a row for each of the keys [numbered n], and a key
    manager with an empty cache on it. *)
Definition stored_keys (n : nat) : gmap string SqliteKeyBackend.row :=
  list_to_map ((fun k => (k, SqliteKeyBackend.Row key_text None)) <$> numbered n).

Definition stored_manager (n : nat) : KeyManager.t :=
  KeyManager.mk ∅ [] (SqliteKeyBackend.mk (Some (stored_keys n))) [].

(** [get_key] called on each key in turn, by a caller that goes on
    after an exception. *)
Definition read_each (keys : list string) (m : KeyManager.t) : KeyManager.t :=
  foldl (fun m key => after (KeyManager.get_key key) m) m keys.

(** Two process sections, each with a command and a line [env:... = ...]
    of its own:
    [[process:a]], [cmd = /bin/a], [env:FOO = 1],
    [[process:b]], [cmd = /bin/b], [env:BAR = 2]. *)
Definition two_processes : Gafferd.config :=
  [("process:a", [("cmd", "/bin/a"); ("env", "FOO = 1")]);
   ("process:b", [("cmd", "/bin/b"); ("env", "BAR = 2")])].

(** A configuration without endpoint sections: an empty [[gaffer]]
    section and nothing else. *)
Definition no_endpoint : Gafferd.config :=
  [("gaffer", [])].


(** [loop_post I r]: the loop whose outcome is [r] has either raised or
    ended with local variables that satisfy [I]. *)
Definition loop_post {S B} (I : B → Prop) (r : result B * S) : Prop :=
  match r.1 with Ok b => I b | Raise _ => True end.

(** Whether [Key.__init__] can test ['*' in] the value it finds under
    ['manage'] or ['write']: a missing or false entry is replaced by [{}],
    a list or a string is a container, [True] and other objects are not. *)
Definition entry_ok (v : option pyval) : bool :=
  match v with
  | Some (VBool true) | Some VOpaque => false
  | _ => true
  end.

(** [what.split(".")[0]] *)
Definition session_of (what : string) : string :=
  default "" (head (split_chr "." what)).

(** The bookkeeping of the cache: [_entries] lists the cached keys, each
    once. *)
Definition cache_inv (m : KeyManager.t) : Prop :=
  NoDup (KeyManager._entries m) ∧
  ∀ k, k ∈ KeyManager._entries m ↔ is_Some (KeyManager._cache m !! k).

Definition is_int (kwargs : Gafferd.kwargs_val) : Prop :=
  match kwargs with Gafferd.KwInt _ => True | Gafferd.KwDict _ => False end.

End Examples.
Import Examples.

(** * Properties *)

(** A closed decidable statement is settled by running its decision
    procedure. *)
Ltac by_computation :=
  apply (bool_decide_unpack _); vm_compute; reflexivity.

(** ** Keys and permissions *)

Lemma init_superuser :
  Key.__init__ (OVal (VStr "su")) (OVal (VStr ""))
    (ODict (<["superuser" := VBool true]> ∅)) = Ok key_superuser.
Proof. reflexivity. Qed.

Lemma init_read_web :
  Key.__init__ (OVal (VStr "r")) (OVal (VStr ""))
    (ODict (<["read" := VList ["web"; "*"]]> ∅)) = Ok key_read_web.
Proof. reflexivity. Qed.

Lemma init_manage_web :
  Key.__init__ (OVal (VStr "m")) (OVal (VStr ""))
    (ODict (<["manage" := VList ["web"]]> ∅)) = Ok key_manage_web.
Proof. reflexivity. Qed.

Lemma split_chr_cons c s : ∃ x xs, split_chr c s = x :: xs.
Proof.
  induction s as [|a s' IH]; simpl; [by eauto|].
  destruct (Ascii.eqb a c); [by eauto|].
  destruct IH as (x & xs & ->). by eauto.
Qed.

Lemma item_split_chr c s : ∃ x, item (split_chr c s) 0 = Ok x.
Proof. destruct (split_chr_cons c s) as (x & xs & ->). by exists x. Qed.

Lemma scope_test_empty s : scope_test (ODict ∅) s = Ok false.
Proof.
  unfold scope_test. destruct (contains "." s); simpl; [|reflexivity].
  destruct (item_split_chr "." s) as [x ->]. reflexivity.
Qed.

(** The scope test never raises [UnknownPermission]. *)
Lemma scope_test_known set s : scope_test set s ≠ Raise UnknownPermission.
Proof.
  unfold scope_test.
  assert (Hin : ∀ x, py_in x set ≠ Raise UnknownPermission).
  { intros x. destruct set as [[]|]; simpl; congruence. }
  destruct (contains "." s); simpl.
  - destruct (item_split_chr "." s) as [x ->]. simpl.
    specialize (Hin x) as Hx. destruct (py_in x set) as [[]|e]; simpl; try congruence.
    specialize (Hin s) as Hs. destruct (py_in s set) as [[]|e]; simpl; congruence.
  - specialize (Hin s) as Hs. destruct (py_in s set) as [[]|e]; simpl; congruence.
Qed.

Section KeyFacts.

Variable inherited : string -> option pyobj.

(** For the three permission names [can] is the scope test on the
    attribute of that name: [manage_all], [write_all] and [read_all] are
    no attributes of a key (the flags are called [can_manage_all], ...),
    so the second test of [can] never fires for them. *)
Lemma can_manage_eq k s :
  Key.can inherited k "manage" s = scope_test (Key.manage k) s.
Proof. reflexivity. Qed.

Lemma can_write_eq k s :
  Key.can inherited k "write" s = scope_test (Key.write k) s.
Proof. reflexivity. Qed.

Lemma can_read_eq k s :
  Key.can inherited k "read" s = scope_test (Key.read k) s.
Proof. reflexivity. Qed.

(** Whatever passes the [hasattr] test, the rest of [can] is the scope
    test on the attribute unless the [_all] attribute is true. *)
Lemma can_known k p s v :
  Key.getattr inherited k p = Some v →
  Key.can inherited k p s = Ok true ∨ Key.can inherited k p s = scope_test v s.
Proof.
  intros Hv. unfold Key.can, Key.hasattr. rewrite Hv. simpl.
  destruct (truthy_obj _); [by left | by right].
Qed.

(** [hasattr] in terms of the names. *)
Lemma instance_dict_None k p :
  (Key.instance_dict k !! p = None) ↔ (p ∉ Key.instance_attrs).
Proof. unfold Key.instance_dict. by rewrite <- not_elem_of_list_to_map. Qed.

Lemma hasattr_false k p :
  (Key.hasattr inherited k p = false) ↔
  ((p ∉ Key.instance_attrs) ∧ (p ∉ Key.class_attrs) ∧
   (String.prefix "__" p = true → inherited p = None)).
Proof.
  unfold Key.hasattr, Key.getattr.
  destruct (Key.instance_dict k !! p) as [v|] eqn:Hd.
  - split; [done|]. intros (Hi & _).
    pose proof (proj2 (instance_dict_None k p) Hi). congruence.
  - pose proof (proj1 (instance_dict_None k p) Hd). case_bool_decide as Hc.
    + split; [done|]. by intros (_ & ? & _).
    + destruct (String.prefix "__" p).
      * destruct (inherited p) eqn:Hp; split; try done.
        intros (_ & _ & Hn). by specialize (Hn eq_refl).
      * split; [|done]. intros _. by repeat split.
Qed.

(** The [read] attribute of a constructed key is its [write] attribute:
    both are read from the ['write'] entry. *)
Lemma init_read_is_write api_key label permissions k :
  Key.__init__ api_key label permissions = Ok k →
  Key.read k = Key.write k ∧
  ∃ perms, permissions = ODict perms ∧ Key.read k = Key.get_or_empty perms "write".
Proof.
  destruct permissions as [v|perms]; simpl; [done|].
  destruct (py_in "*" (Key.get_or_empty perms "manage")); simpl; [|done].
  destruct (py_in "*" (Key.get_or_empty perms "write")); simpl; [|done].
  intros [= <-]. simpl. eauto.
Qed.

End KeyFacts.

(** C10: for a key [k] that [Key.__init__] has constructed,
    [Key.load(k.dump())] does not raise and returns a key equal to [k]
    attribute by attribute; in particular it has the same api_key, label
    and permissions mapping. *)
Theorem load_dump_roundtrip api_key label permissions k :
  Key.__init__ api_key label permissions = Ok k →
  Key.load (Key.dump k) = Ok k ∧
  ∃ k', Key.load (Key.dump k) = Ok k' ∧
        Key.api_key k' = Key.api_key k ∧ Key.label k' = Key.label k ∧
        Key.permissions k' = Key.permissions k.
Proof.
  intros Hk.
  assert (Key.load (Key.dump k) = Ok k) as Hload.
  { destruct permissions as [v|perms]; simpl in Hk; [done|].
    destruct (py_in "*" (Key.get_or_empty perms "manage")) eqn:Hm; simpl in Hk; [|done].
    destruct (py_in "*" (Key.get_or_empty perms "write")) eqn:Hw; simpl in Hk; [|done].
    injection Hk as <-.
    unfold Key.load, Key.dump. simpl.
    change (Key.__init__ api_key label (ODict perms) = Ok
              (Key.mk api_key label perms (Key.get_or_empty perms "manage")
                 (Key.get_or_empty perms "write") (Key.get_or_empty perms "write") a a0 a0)).
    unfold Key.__init__. rewrite Hm. simpl. rewrite Hw. reflexivity. }
  split; [exact Hload|]. exists k. by rewrite Hload.
Qed.

Lemma load_dump_roundtrip_witness :
  Key.load (Key.dump key_manage_web) = Ok key_manage_web ∧
  ∃ k', Key.load (Key.dump key_manage_web) = Ok k' ∧
        Key.api_key k' = Key.api_key key_manage_web ∧
        Key.label k' = Key.label key_manage_web ∧
        Key.permissions k' = Key.permissions key_manage_web.
Proof.
  apply (load_dump_roundtrip (OVal (VStr "m")) (OVal (VStr ""))
           (ODict (<["manage" := VList ["web"]]> ∅))).
  reflexivity.
Defined.

(** C1: the code departs from the rule.  The key built from
    [{"superuser": True}] is a superuser: [is_superuser()], whose
    docstring asks whether the key has all rights, returns true.  [can]
    never reads the flag: [can("read", "anything")] is false for that key,
    and so are [can] for write and manage and the three wrappers. *)
Theorem superuser_can_read_false :
  Key.__init__ (OVal (VStr "su")) (OVal (VStr ""))
    (ODict (<["superuser" := VBool true]> ∅)) = Ok key_superuser ∧
  Key.is_superuser key_superuser = VBool true ∧
  (∀ inherited,
     Key.can inherited key_superuser "read" "anything" = Ok false ∧
     Key.can inherited key_superuser "write" "anything" = Ok false ∧
     Key.can inherited key_superuser "manage" "anything" = Ok false ∧
     Key.can_read inherited key_superuser "anything" = Ok false ∧
     Key.can_write inherited key_superuser "anything" = Ok false ∧
     Key.can_manage inherited key_superuser "anything" = Ok false).
Proof.
  split; [reflexivity|]. split; [reflexivity|].
  intros inherited. repeat split; reflexivity.
Qed.

(** C3 at a key built from [{"read": ["web", "*"]}]: the [read]
    attribute is empty, because [__init__] fills it from the ['write']
    entry, and [can('read', s)] is false for the scope web itself, for a
    job of the session web and, in spite of the [*], for any other scope. *)
Theorem read_entry_is_not_used inherited :
  Key.__init__ (OVal (VStr "r")) (OVal (VStr ""))
    (ODict (<["read" := VList ["web"; "*"]]> ∅)) = Ok key_read_web ∧
  Key.read key_read_web = ODict ∅ ∧
  Key.can inherited key_read_web "read" "web" = Ok false ∧
  Key.can inherited key_read_web "read" "web.nginx" = Ok false ∧
  Key.can inherited key_read_web "read" "db" = Ok false ∧
  Key.can_read inherited key_read_web "web" = Ok false.
Proof. repeat split; reflexivity. Qed.

(** The [*] scope is computed by [__init__] and never looked at by [can],
    which asks for the attribute [write_all], not [can_write_all]. *)
Lemma star_is_not_consulted inherited :
  Key.__init__ (OVal (VStr "w")) (OVal (VStr ""))
    (ODict (<["write" := VList ["*"]]> ∅)) = Ok key_write_all ∧
  Key.can_write_all key_write_all = true ∧
  Key.can inherited key_write_all "write" "web" = Ok false.
Proof. repeat split; reflexivity. Qed.

(** C4, as the code has it: the implication chain holds for the methods
    [can_manage], [can_write] and [can_read]. *)
Theorem permission_implication_of_wrappers inherited k s :
  (Key.can_manage inherited k s = Ok true → Key.can_write inherited k s = Ok true) ∧
  (Key.can_write inherited k s = Ok true → Key.can_read inherited k s = Ok true).
Proof.
  split.
  - intros Hm. unfold Key.can_write. rewrite Hm. reflexivity.
  - intros Hw. unfold Key.can_read. rewrite Hw. reflexivity.
Qed.

Lemma permission_implication_of_wrappers_witness :
  Key.can_manage no_inherited key_manage_web "web.nginx" = Ok true ∧
  Key.can_write no_inherited key_manage_web "web.nginx" = Ok true ∧
  Key.can_read no_inherited key_manage_web "web.nginx" = Ok true.
Proof.
  destruct (permission_implication_of_wrappers no_inherited key_manage_web "web.nginx")
    as [Hmw Hwr].
  assert (Key.can_manage no_inherited key_manage_web "web.nginx" = Ok true) as Hm
    by reflexivity.
  split; [exact Hm|]. split; [exact (Hmw Hm)|exact (Hwr (Hmw Hm))].
Defined.

(** C4 fails for [can] itself: the key built from [{"manage": ["web"]}]
    has [can('manage', 'web')] true and [can('write', 'web')],
    [can('read', 'web')] false. *)
Lemma can_manage_without_can_write :
  Key.__init__ (OVal (VStr "m")) (OVal (VStr ""))
    (ODict (<["manage" := VList ["web"]]> ∅)) = Ok key_manage_web ∧
  (∀ inherited,
     Key.can inherited key_manage_web "manage" "web" = Ok true ∧
     Key.can inherited key_manage_web "write" "web" = Ok false ∧
     Key.can inherited key_manage_web "read" "web" = Ok false).
Proof. split; [reflexivity|]. intros inherited. repeat split; reflexivity. Qed.

(** C7, as the code has it: [can(p, scope)] raises [UnknownPermission]
    exactly when [p] is no attribute of the key: not one of the nine
    instance attributes, not a name bound in the class body and not an
    attribute inherited from [object]. *)
Theorem unknown_permission_iff_no_attribute inherited k p s :
  (Key.can inherited k p s = Raise UnknownPermission) ↔
  ((p ∉ Key.instance_attrs) ∧ (p ∉ Key.class_attrs) ∧
   (String.prefix "__" p = true → inherited p = None)).
Proof.
  rewrite <- (hasattr_false inherited k p). split.
  - intros Hcan. destruct (Key.getattr inherited k p) as [v|] eqn:Hv.
    + destruct (can_known inherited k p s v Hv) as [Ht|Ht].
      * rewrite Ht in Hcan. discriminate.
      * rewrite Ht in Hcan. by apply scope_test_known in Hcan.
    + unfold Key.hasattr. by rewrite Hv.
  - intros Hh. unfold Key.can. by rewrite Hh.
Qed.

(** C7 fails as stated: [label] is none of manage, write, read, and
    [can("label", "x")] returns false instead of raising; with the name
    [permissions] it even returns true for the scope [write]. *)
Lemma can_label_does_not_raise :
  ("label" ∉ ["manage"; "write"; "read"]) ∧
  (∀ inherited,
     Key.can inherited key_manage_web "label" "x" = Ok false ∧
     Key.can inherited key_manage_web "permissions" "manage" = Ok true).
Proof.
  split; [apply (bool_decide_unpack _); reflexivity|].
  intros inherited. split; reflexivity.
Qed.


(** ** The key store *)

Lemma manager_eta (m : KeyManager.t) :
  KeyManager.mk (KeyManager._cache m) (KeyManager._entries m)
    (KeyManager._backend m) (KeyManager._emitter m) = m.
Proof. by destruct m. Qed.

Lemma backend_eta (b : SqliteKeyBackend.t) keys :
  SqliteKeyBackend.conn b = Some keys → SqliteKeyBackend.mk (Some keys) = b.
Proof. destruct b as [c]. simpl. by intros ->. Qed.

(** *** The backend *)

Lemma backend_set_key_dict key d parent b keys :
  SqliteKeyBackend.conn b = Some keys →
  SqliteKeyBackend.set_key key (SqliteKeyBackend.DataDict d) parent b
    = (Raise (NameError "json"), b).
Proof.
  intros Hc. unfold SqliteKeyBackend.set_key, SqliteKeyBackend.the_conn, mbind, M_bind.
  by rewrite Hc.
Qed.

Lemma backend_set_key_fresh key s parent b keys :
  SqliteKeyBackend.conn b = Some keys → keys !! key = None →
  SqliteKeyBackend.set_key key (SqliteKeyBackend.DataText s) parent b =
    (Ok tt, SqliteKeyBackend.mk (Some (<[key := SqliteKeyBackend.Row s parent]> keys))).
Proof.
  intros Hc Hk. unfold SqliteKeyBackend.set_key, SqliteKeyBackend.the_conn, mbind, M_bind.
  rewrite Hc. simpl. by rewrite Hk.
Qed.

Lemma backend_set_key_existing key s parent b keys r :
  SqliteKeyBackend.conn b = Some keys → keys !! key = Some r →
  SqliteKeyBackend.set_key key (SqliteKeyBackend.DataText s) parent b
    = (Raise (NameError "UserConflict"), b).
Proof.
  intros Hc Hk. unfold SqliteKeyBackend.set_key, SqliteKeyBackend.the_conn, mbind, M_bind.
  rewrite Hc. simpl. by rewrite Hk.
Qed.

(** A row that is found is handed to [_make_key], which raises. *)
Lemma backend_get_key_found key b keys r :
  SqliteKeyBackend.conn b = Some keys → keys !! key = Some r →
  SqliteKeyBackend.get_key key b = (Raise (NameError "json"), b).
Proof.
  intros Hc Hk. unfold SqliteKeyBackend.get_key, SqliteKeyBackend.the_conn, mbind, M_bind.
  by rewrite Hc, Hk.
Qed.

Lemma backend_get_key_missing key b keys :
  SqliteKeyBackend.conn b = Some keys → keys !! key = None →
  SqliteKeyBackend.get_key key b = (Raise KeyNotFound, b).
Proof.
  intros Hc Hk. unfold SqliteKeyBackend.get_key, SqliteKeyBackend.the_conn, mbind, M_bind.
  by rewrite Hc, Hk.
Qed.

Lemma backend_get_key_unopened key b :
  SqliteKeyBackend.conn b = None →
  SqliteKeyBackend.get_key key b = (Raise AssertionError, b).
Proof.
  intros Hc. unfold SqliteKeyBackend.get_key, SqliteKeyBackend.the_conn, mbind, M_bind.
  by rewrite Hc.
Qed.

(** The backend's [get_key] never returns, and changes nothing. *)
Lemma backend_get_key_raises key b :
  ∃ e, SqliteKeyBackend.get_key key b = (Raise e, b).
Proof.
  destruct (SqliteKeyBackend.conn b) as [keys|] eqn:Hc.
  - destruct (keys !! key) as [r|] eqn:Hk.
    + exists (NameError "json"). by apply (backend_get_key_found key b keys r).
    + exists KeyNotFound. by apply (backend_get_key_missing key b keys).
  - exists AssertionError. by apply backend_get_key_unopened.
Qed.

Lemma backend_has_key_spec key b keys :
  SqliteKeyBackend.conn b = Some keys →
  SqliteKeyBackend.has_key key b =
    (match keys !! key with
     | Some _ => Raise (NameError "json")
     | None => Ok false
     end, b).
Proof.
  intros Hc. unfold SqliteKeyBackend.has_key.
  destruct (keys !! key) as [r|] eqn:Hk.
  - by rewrite (backend_get_key_found key _ keys r Hc Hk).
  - by rewrite (backend_get_key_missing key _ keys Hc Hk).
Qed.

(** *** [KeyManager.set_key] *)

Lemma set_key_dict key d parent m keys :
  SqliteKeyBackend.conn (KeyManager._backend m) = Some keys →
  KeyManager.set_key key (SqliteKeyBackend.DataDict d) parent m
    = (Raise (NameError "json"), m).
Proof.
  intros Hc. unfold KeyManager.set_key, KeyManager.on_backend, mbind, M_bind.
  rewrite (backend_set_key_dict key d parent _ keys Hc). by rewrite manager_eta.
Qed.

Lemma set_key_existing key s parent m keys :
  SqliteKeyBackend.conn (KeyManager._backend m) = Some keys →
  is_Some (keys !! key) →
  KeyManager.set_key key (SqliteKeyBackend.DataText s) parent m
    = (Raise (NameError "UserConflict"), m).
Proof.
  intros Hc [r Hk]. unfold KeyManager.set_key, KeyManager.on_backend, mbind, M_bind.
  rewrite (backend_set_key_existing key s parent _ keys r Hc Hk). by rewrite manager_eta.
Qed.

(** On a fresh key the row is inserted, and the call that is to publish
    the event raises. *)
Lemma set_key_fresh key s parent m keys :
  SqliteKeyBackend.conn (KeyManager._backend m) = Some keys → keys !! key = None →
  KeyManager.set_key key (SqliteKeyBackend.DataText s) parent m =
    (Raise (AttributeError "publlish"),
     KeyManager.mk (KeyManager._cache m) (KeyManager._entries m)
       (SqliteKeyBackend.mk (Some (<[key := SqliteKeyBackend.Row s parent]> keys)))
       (KeyManager._emitter m)).
Proof.
  intros Hc Hk. unfold KeyManager.set_key, KeyManager.on_backend, mbind, M_bind.
  by rewrite (backend_set_key_fresh key s parent _ keys Hc Hk).
Qed.

(** C6: on an open connection [set_key] never raises [KeyConflict] and
    never returns.  Given a dictionary it raises the [NameError] of the
    unbound name [json] before the table is touched, whether the key is
    stored or not.  Given text for a key that has a row, it raises the
    [NameError] of the unbound name [UserConflict] and leaves the manager
    as it was.  Given text for a fresh key, it inserts the row and then
    raises at [publlish]. *)
Theorem set_key_never_KeyConflict key data parent m keys :
  SqliteKeyBackend.conn (KeyManager._backend m) = Some keys →
  (∀ d, data = SqliteKeyBackend.DataDict d →
        KeyManager.set_key key data parent m = (Raise (NameError "json"), m)) ∧
  (∀ s, data = SqliteKeyBackend.DataText s → is_Some (keys !! key) →
        KeyManager.set_key key data parent m = (Raise (NameError "UserConflict"), m)) ∧
  (∀ s, data = SqliteKeyBackend.DataText s → keys !! key = None →
        KeyManager.set_key key data parent m =
          (Raise (AttributeError "publlish"),
           KeyManager.mk (KeyManager._cache m) (KeyManager._entries m)
             (SqliteKeyBackend.mk (Some (<[key := SqliteKeyBackend.Row s parent]> keys)))
             (KeyManager._emitter m))) ∧
  (∃ e, (KeyManager.set_key key data parent m).1 = Raise e ∧ e ≠ KeyConflict).
Proof.
  intros Hc.
  split; [by intros d ->; apply (set_key_dict key d parent m keys)|].
  split; [by intros s ->; apply (set_key_existing key s parent m keys)|].
  split; [by intros s ->; apply (set_key_fresh key s parent m keys)|].
  destruct data as [d|s].
  - rewrite (set_key_dict key d parent m keys Hc). by eexists.
  - destruct (keys !! key) as [r|] eqn:Hk.
    + rewrite (set_key_existing key s parent m keys Hc) by (rewrite Hk; eauto).
      by eexists.
    + rewrite (set_key_fresh key s parent m keys Hc Hk). by eexists.
Qed.

Lemma set_key_never_KeyConflict_witness :
  KeyManager.set_key "root" (SqliteKeyBackend.DataDict key_data) None family
    = (Raise (NameError "json"), family) ∧
  KeyManager.set_key "root" (SqliteKeyBackend.DataText key_text) None family
    = (Raise (NameError "UserConflict"), family).
Proof.
  split.
  - destruct (set_key_never_KeyConflict "root" (SqliteKeyBackend.DataDict key_data) None
                family family_keys) as (Hdict & _).
    + by_computation.
    + by apply (Hdict key_data).
  - destruct (set_key_never_KeyConflict "root" (SqliteKeyBackend.DataText key_text) None
                family family_keys) as (_ & Hdup & _).
    + by_computation.
    + apply (Hdup key_text); [reflexivity|]. by_computation.
Defined.

(** *** [KeyManager.get_key] *)

Lemma get_key_cached key m o :
  KeyManager._cache m !! key = Some o → KeyManager.get_key key m = (Ok o, m).
Proof.
  intros Hc. unfold KeyManager.get_key, mbind, M_bind, gets. by rewrite Hc.
Qed.

Lemma get_key_unopened key m :
  KeyManager._cache m !! key = None →
  SqliteKeyBackend.conn (KeyManager._backend m) = None →
  KeyManager.get_key key m = (Raise AssertionError, m).
Proof.
  intros Hcache Hconn.
  unfold KeyManager.get_key, mbind, M_bind, gets. rewrite Hcache.
  unfold KeyManager.on_backend.
  rewrite (backend_get_key_unopened key _ Hconn). simpl. by rewrite manager_eta.
Qed.

Lemma get_key_no_row key m keys :
  KeyManager._cache m !! key = None →
  SqliteKeyBackend.conn (KeyManager._backend m) = Some keys →
  keys !! key = None →
  KeyManager.get_key key m = (Raise KeyNotFound, m).
Proof.
  intros Hcache Hconn Hrow.
  unfold KeyManager.get_key, mbind, M_bind, gets. rewrite Hcache.
  unfold KeyManager.on_backend.
  rewrite (backend_get_key_missing key _ keys Hconn Hrow). simpl.
  by rewrite manager_eta.
Qed.

(** A miss on a stored key: the row is found and cannot be decoded. *)
Lemma get_key_row key m keys r :
  KeyManager._cache m !! key = None →
  SqliteKeyBackend.conn (KeyManager._backend m) = Some keys →
  keys !! key = Some r →
  KeyManager.get_key key m = (Raise (NameError "json"), m).
Proof.
  intros Hcache Hconn Hrow.
  unfold KeyManager.get_key, mbind, M_bind, gets. rewrite Hcache.
  unfold KeyManager.on_backend.
  rewrite (backend_get_key_found key _ keys r Hconn Hrow). simpl.
  by rewrite manager_eta.
Qed.

(** The cleaning of the cache is given the key that is being entered,
    not the oldest one: when the cache holds 1000 entries or more and the
    key is not among them, the oldest key leaves [_entries] and
    [self._cache.pop(key)] raises [KeyError]; below 1000 entries the
    object is entered. *)
Lemma cache_insert_at_capacity key okey m oldest rest :
  KeyManager._cache m !! key = None →
  (1000 ≤ size (KeyManager._cache m))%nat →
  KeyManager._entries m = oldest :: rest →
  KeyManager.cache_insert key okey m =
    (Raise (KeyError key),
     KeyManager.mk (KeyManager._cache m) rest
       (KeyManager._backend m) (KeyManager._emitter m)).
Proof.
  intros Hcache Hsize Hentries.
  unfold KeyManager.cache_insert, mbind, M_bind, gets. simpl.
  rewrite bool_decide_eq_true_2 by lia. simpl.
  unfold KeyManager.entries_popleft, mbind, M_bind, gets. simpl.
  rewrite Hentries. simpl.
  unfold KeyManager.cache_pop, mbind, M_bind, gets. simpl.
  by rewrite Hcache.
Qed.

Lemma cache_insert_below_capacity key okey m :
  size (KeyManager._cache m) < 1000 →
  KeyManager.cache_insert key okey m =
    (Ok tt,
     KeyManager.mk (<[key := okey]> (KeyManager._cache m))
       (KeyManager._entries m ++ [key])%list
       (KeyManager._backend m) (KeyManager._emitter m)).
Proof.
  intros Hsize.
  unfold KeyManager.cache_insert, mbind, M_bind, gets. simpl.
  rewrite bool_decide_eq_false_2 by lia. reflexivity.
Qed.

(** Every way [get_key] can go: a hit returns the cached object, a miss
    raises; neither changes the manager. *)
Lemma get_key_cases key m :
  (∃ o, KeyManager._cache m !! key = Some o ∧ KeyManager.get_key key m = (Ok o, m)) ∨
  (KeyManager._cache m !! key = None ∧ ∃ e, KeyManager.get_key key m = (Raise e, m)).
Proof.
  destruct (KeyManager._cache m !! key) as [o|] eqn:Hcache.
  { left. exists o. split; [done|]. by apply get_key_cached. }
  right. split; [done|].
  destruct (SqliteKeyBackend.conn (KeyManager._backend m)) as [keys|] eqn:Hconn.
  2:{ exists AssertionError. by apply get_key_unopened. }
  destruct (keys !! key) as [r|] eqn:Hrow.
  - exists (NameError "json"). by apply (get_key_row key m keys r).
  - exists KeyNotFound. by apply (get_key_no_row key m keys).
Qed.

Lemma get_key_state key m : after (KeyManager.get_key key) m = m.
Proof.
  unfold after.
  destruct (get_key_cases key m) as [(o & _ & ->)|(_ & e & ->)]; done.
Qed.

Lemma read_each_state ks m : read_each ks m = m.
Proof.
  revert m. induction ks as [|k ks IH]; intros m; [done|].
  unfold read_each in *. simpl. by rewrite get_key_state.
Qed.

(** C5: no key that is read from the backend enters the cache.  A
    [get_key] for a stored key that is not cached raises the [NameError] of
    the unbound name [json], raised by [_make_key], and leaves the manager
    as it was; so after any number of such calls, each for a stored key,
    the cache holds what it held before, and the 1000 entries of the rule
    are never reached from an empty cache. *)
Theorem cold_get_key_caches_nothing ks m keys :
  SqliteKeyBackend.conn (KeyManager._backend m) = Some keys →
  (∀ k, k ∈ ks → KeyManager._cache m !! k = None ∧ is_Some (keys !! k)) →
  (∀ k, k ∈ ks → KeyManager.get_key k m = (Raise (NameError "json"), m)) ∧
  read_each ks m = m ∧
  size (KeyManager._cache (read_each ks m)) = size (KeyManager._cache m).
Proof.
  intros Hconn Hks. split; [|split].
  - intros k Hk. destruct (Hks k Hk) as [Hcold [r Hr]].
    by apply (get_key_row k m keys r).
  - apply read_each_state.
  - by rewrite read_each_state.
Qed.

Lemma stored_keys_lookup n k :
  k ∈ numbered n → is_Some (stored_keys n !! k).
Proof.
  intros Hk. unfold stored_keys.
  exists (SqliteKeyBackend.Row key_text None).
  apply elem_of_list_to_map_1'.
  - intros y Hy. apply list_elem_of_fmap in Hy as (k' & [= <- <-] & _). done.
  - apply list_elem_of_fmap. by exists k.
Qed.

Lemma cold_get_key_caches_nothing_witness :
  (∀ k, k ∈ numbered 1000 →
        KeyManager.get_key k (stored_manager 1001)
          = (Raise (NameError "json"), stored_manager 1001)) ∧
  read_each (numbered 1000) (stored_manager 1001) = stored_manager 1001 ∧
  size (KeyManager._cache (read_each (numbered 1000) (stored_manager 1001)))
    = size (KeyManager._cache (stored_manager 1001)).
Proof.
  apply (cold_get_key_caches_nothing (numbered 1000) (stored_manager 1001) (stored_keys 1001)).
  - reflexivity.
  - intros k Hk. split; [reflexivity|].
    apply stored_keys_lookup. unfold numbered in *.
    apply list_elem_of_fmap in Hk as (i & -> & Hi). apply list_elem_of_fmap.
    exists i. split; [done|]. apply elem_of_seq in Hi. apply elem_of_seq. lia.
Defined.

(** *** [KeyManager.delete_key] *)

(** C2 on a key, its child and its grandchild: [delete_key("root")]
    raises [AttributeError] at [self.conn], before any row is deleted, and
    leaves the manager as it was.  The rows of the root, the child and the
    grandchild are still in the table; [has_key] and [get_key] for the
    child and the grandchild do not answer false or raise [KeyNotFound]:
    they find the row and raise the [NameError] of [_make_key]. *)
Theorem delete_key_keeps_descendants :
  KeyManager.delete_key "root" family = (Raise (AttributeError "conn"), family) ∧
  SqliteKeyBackend.conn (KeyManager._backend family_deleted) = Some family_keys ∧
  family_keys !! "root" = Some (SqliteKeyBackend.Row key_text None) ∧
  family_keys !! "child1" = Some (SqliteKeyBackend.Row key_text (Some "root")) ∧
  family_keys !! "grand" = Some (SqliteKeyBackend.Row key_text (Some "child1")) ∧
  KeyManager.has_key "child1" family_deleted = (Raise (NameError "json"), family_deleted) ∧
  KeyManager.has_key "grand" family_deleted = (Raise (NameError "json"), family_deleted) ∧
  KeyManager.get_key "child1" family_deleted = (Raise (NameError "json"), family_deleted) ∧
  KeyManager.get_key "grand" family_deleted = (Raise (NameError "json"), family_deleted).
Proof. repeat (split; [by_computation|]). by_computation. Qed.

(** ** The configuration loader *)

(** A loop keeps what each run of its body keeps. *)
Lemma for_fold_post {S A B} (I : B → Prop) (body : B → A → M S B) (l : list A) :
  (∀ b x s, x ∈ l → I b → loop_post I (body b x s)) →
  ∀ acc s, I acc → loop_post I (for_fold l acc body s).
Proof.
  induction l as [|x l IH]; intros Hbody acc s Hacc; simpl; [done|].
  unfold mbind, M_bind.
  pose proof (Hbody acc x s ltac:(left) Hacc) as Hx. unfold loop_post in Hx.
  destruct (body acc x s) as [[acc'|e] s']; simpl in *; [|done].
  apply IH; [|done]. intros b y t Hy. apply Hbody. by right.
Qed.

(** [s.split(sep, 1)[1]] exists when [s] starts with [sep]. *)
Lemma index_prefix sep s :
  String.prefix sep s = true → String.index 0 sep s = Some 0.
Proof.
  destruct s as [|a s]; simpl.
  - by destruct sep.
  - by intros ->.
Qed.

Lemma item_split1_prefix sep s :
  String.prefix sep s = true → ∃ name, item (split1 sep s) 1 = Ok name.
Proof.
  intros Hp. unfold split1. rewrite (index_prefix sep s Hp). by eexists.
Qed.

(** The name of an option, which the parser ends at the first [:], does
    not start with [env:]: the third branch of the loop over the items of
    a process section is never taken. *)
Lemma parsed_option_never_env key :
  Gafferd.option_name_ok key = true → String.prefix "env:" key = false.
Proof.
  unfold Gafferd.option_name_ok, contains. intros Hok.
  destruct (String.prefix "env:" key) eqn:Hp; [|done].
  apply String.prefix_correct in Hp.
  destruct key as [|a1 [|a2 [|a3 [|a4 key]]]]; try discriminate Hp.
  injection Hp as -> -> -> -> _.
  by destruct key.
Qed.

Section GetConfigFacts.

Variable to_int : string → result Z.
Variable to_boolean : string → result bool.
Variable tempdir : string.

(** The body of the loop over the items of a process section, on any
    item: it never rebinds [params['env']], which stays the dictionary that
    [PROCESS_DEFAULTS.copy()] shares with [PROCESS_DEFAULTS]. *)
Lemma process_item_env cfg section params kv h :
  Gafferd.env params = Gafferd.env_loc →
  loop_post (fun p => Gafferd.env p = Gafferd.env_loc)
    (Gafferd.process_item to_int to_boolean cfg section params kv h).
Proof.
  intros He. destruct kv as [key val]. destruct params as [g a e u gi c d n st].
  simpl in He. subst e. unfold Gafferd.process_item, loop_post.
  repeat (match goal with
          | |- context [if ?b then _ else _] => destruct b
          end; simpl; try done).
  - unfold mbind, M_bind, lift. destruct (item _ _); simpl; done.
  - unfold mbind, M_bind, lift. destruct (Gafferd.getboolean _ _ _ _ _); simpl; done.
  - unfold mbind, M_bind, lift. destruct (Gafferd.getint _ _ _ _ _); simpl; done.
  - unfold mbind, M_bind, lift. destruct (Gafferd.getboolean _ _ _ _ _); simpl; done.
Qed.

(** [cfg.get] returns the default for an option that is absent and raises
    [TypeError] for one that is present. *)
Lemma get_cases cfg section option default :
  (Gafferd.has_option cfg section option = false ∧
   Gafferd.get cfg section option default = Ok default) ∨
  (Gafferd.has_option cfg section option = true ∧
   Gafferd.get cfg section option default = Raise TypeError).
Proof.
  unfold Gafferd.get. destruct (Gafferd.has_option cfg section option); [by right|by left].
Qed.

(** [cfg.items] returns the empty list for a section without options and
    raises [TypeError] for any other. *)
Lemma items_cases cfg section :
  (Gafferd.options cfg section = [] ∧ Gafferd.items cfg section = Ok []) ∨
  (Gafferd.options cfg section ≠ [] ∧ Gafferd.items cfg section = Raise TypeError).
Proof.
  unfold Gafferd.items. destruct (Gafferd.options cfg section) as [|[option value] rest].
  - by left.
  - by right.
Qed.

(** A section adds nothing to [endpoints] and [processes] and stores
    nothing, or raises [TypeError]. *)
Lemma section_step_cases cfg names section h :
  ∃ r, Gafferd.section_step to_int to_boolean cfg names ([], []) section h = (r, h) ∧
       (r = Ok ([], []) ∨ r = Raise TypeError).
Proof.
  unfold Gafferd.section_step.
  destruct (String.prefix "endpoint:" section) eqn:He.
  - destruct (item_split1_prefix _ _ He) as [name Hname].
    unfold mbind at 1. unfold M_bind, lift. rewrite Hname.
    case_bool_decide; [|by eexists; split; [reflexivity|left]].
    unfold Gafferd.endpoint_section, mbind, M_bind, lift.
    destruct (items_cases cfg section) as [[_ ->]|[_ ->]];
      [|by eexists; split; [reflexivity|right]].
    simpl. unfold gets.
    destruct (bool_decide _); by eexists; split; [reflexivity|left].
  - destruct (String.prefix "process:" section) eqn:Hp;
      [|by eexists; split; [reflexivity|left]].
    destruct (item_split1_prefix _ _ Hp) as [name Hname].
    unfold mbind, M_bind, lift. rewrite Hname.
    destruct (get_cases cfg section "cmd" "") as [[_ ->]|[_ ->]].
    + by eexists; split; [reflexivity|left].
    + by eexists; split; [reflexivity|right].
Qed.

Lemma sections_cases cfg names sections h :
  ∃ r, for_fold sections ([], []) (Gafferd.section_step to_int to_boolean cfg names) h
         = (r, h) ∧
       (r = Ok ([], []) ∨ r = Raise TypeError).
Proof.
  induction sections as [|section sections IH];
    [by eexists; split; [reflexivity|left]|].
  cbn [for_fold]. unfold mbind, M_bind.
  destruct (section_step_cases cfg names section h) as (r & -> & [-> | ->]);
    [exact IH|].
  by eexists; split; [reflexivity|right].
Qed.

(** [get_config] raises [TypeError] on every configuration, and stores
    nothing in the dictionaries of the defaults. *)
Lemma get_config_raises cfg h :
  Gafferd.get_config to_int to_boolean tempdir cfg h = (Raise TypeError, h).
Proof.
  unfold Gafferd.get_config. unfold mbind at 1. unfold M_bind, lift.
  destruct (get_cases cfg "gaffer" "http_endpoints" "") as [[_ ->]|[_ ->]]; [|done].
  unfold mbind at 1. unfold M_bind.
  destruct (sections_cases cfg (split_chr "," "") (cfg.*1) h) as (r & -> & [-> | ->]);
    done.
Qed.

(** C9 on a configuration without endpoint sections: [get_config] does
    not return a default endpoint, it raises [TypeError].  Whenever the
    loop over the sections ends without an exception, [endpoints] is empty
    and the exception is the [TypeError] of [os.path.join], which is given
    one list. *)
Theorem no_endpoint_raises cfg h :
  (∀ section, section ∈ cfg.*1 → String.prefix "endpoint:" section = false) →
  Gafferd.get_config to_int to_boolean tempdir cfg h = (Raise TypeError, h) ∧
  (∀ names acc h',
     for_fold (cfg.*1) ([], []) (Gafferd.section_step to_int to_boolean cfg names) h
       = (Ok acc, h') →
     acc.1 = [] ∧
     Gafferd.os_path_join (Gafferd.PList [tempdir; "gaffer.sock"]) [] = Raise TypeError).
Proof.
  intros Hcfg. split; [apply get_config_raises|].
  intros names acc h' Hloop.
  destruct (sections_cases cfg names (cfg.*1) h) as (r & Hc & [-> | ->]);
    rewrite Hc in Hloop.
  - injection Hloop as <- <-. done.
  - discriminate.
Qed.

End GetConfigFacts.

Lemma no_endpoint_raises_witness :
  Gafferd.get_config (fun _ => Raise ValueError) (fun _ => Raise ValueError) "/tmp"
    no_endpoint Gafferd.module_heap = (Raise TypeError, Gafferd.module_heap) ∧
  for_fold (no_endpoint.*1) ([], [])
    (Gafferd.section_step (fun _ => Raise ValueError) (fun _ => Raise ValueError)
       no_endpoint [""]) Gafferd.module_heap = (Ok ([], []), Gafferd.module_heap) ∧
  Gafferd.os_path_join (Gafferd.PList ["/tmp"; "gaffer.sock"]) [] = Raise TypeError.
Proof.
  destruct (no_endpoint_raises (fun _ => Raise ValueError) (fun _ => Raise ValueError)
              "/tmp" no_endpoint Gafferd.module_heap) as [Hraise Hloop].
  - intros section Hsec. simpl in Hsec.
    apply list_elem_of_singleton in Hsec. subst section. reflexivity.
  - split; [exact Hraise|]. split; [reflexivity|].
    exact (proj2 (Hloop [""] ([], []) Gafferd.module_heap eq_refl)).
Defined.

(** With no section at all, and with an empty [[gaffer]] section only,
    the loop ends and the call raises at [os.path.join]. *)
Lemma default_endpoint_TypeError to_int to_boolean tempdir :
  Gafferd.get_config to_int to_boolean tempdir [] Gafferd.module_heap
    = (Raise TypeError, Gafferd.module_heap) ∧
  Gafferd.get_config to_int to_boolean tempdir no_endpoint Gafferd.module_heap
    = (Raise TypeError, Gafferd.module_heap).
Proof. split; reflexivity. Qed.

(** C8 on two process sections, each with a command and an [env:] line
    of its own: no process is returned, with or without an environment.
    The loop reaches the first process section and raises [TypeError] at
    [cfg.get(section, 'cmd', '')], since the command is present; the
    sections' options are [cmd] and [env], none of which starts with
    [env:], and nothing is stored in the [env] dictionary of the
    defaults. *)
Theorem process_env_never_produced to_int to_boolean tempdir :
  Gafferd.get two_processes "gaffer" "http_endpoints" "" = Ok "" ∧
  Gafferd.get two_processes "process:a" "cmd" "" = Raise TypeError ∧
  Gafferd.section_step to_int to_boolean two_processes [""] ([], []) "process:a"
    Gafferd.module_heap = (Raise TypeError, Gafferd.module_heap) ∧
  Gafferd.get_config to_int to_boolean tempdir two_processes Gafferd.module_heap
    = (Raise TypeError, Gafferd.module_heap) ∧
  Forall (fun section => Forall (fun kv => String.prefix "env:" kv.1 = false) section.2)
    two_processes.
Proof.
  split; [reflexivity|]. split; [reflexivity|]. split; [reflexivity|].
  split; [reflexivity|]. repeat constructor.
Qed.
(** * Further properties *)

(** ** [Key.load] and [Key.__init__] *)

Lemma py_in_raises x c e : py_in x c = Raise e → e = TypeError.
Proof. destruct c as [[]|]; simpl; congruence. Qed.

(** The exceptions of [__init__] are the [AttributeError] of a mapping
    that is no dictionary and the [TypeError] of a failed ['*' in]. *)
Lemma init_raises api_key label permissions e :
  Key.__init__ api_key label permissions = Raise e →
  e = AttributeError "get" ∨ e = TypeError.
Proof.
  destruct permissions as [v|perms]; simpl; [intros [= <-]; by left|].
  destruct (py_in "*" (Key.get_or_empty perms "manage")) as [bm|em] eqn:Hm; simpl.
  - destruct (py_in "*" (Key.get_or_empty perms "write")) as [bw|ew] eqn:Hw; simpl.
    + discriminate.
    + intros [= <-]. right. by eapply py_in_raises.
  - intros [= <-]. right. by eapply py_in_raises.
Qed.

(** X1: [Key.load] raises [InvalidKey] exactly when the object has no ["key"]
    entry; a missing label or permissions entry is no error. *)
Theorem load_raises_InvalidKey_iff obj :
  (Key.load obj = Raise InvalidKey) ↔ (obj !! "key" = None).
Proof.
  unfold Key.load. destruct (obj !! "key") as [key|]; [|done].
  split; [|done]. intros Hinit. apply init_raises in Hinit as [?|?]; discriminate.
Qed.

Lemma get_or_empty_py_in perms name x :
  (∃ b, py_in x (Key.get_or_empty perms name) = Ok b) ↔ (entry_ok (perms !! name) = true).
Proof.
  unfold Key.get_or_empty, entry_ok.
  destruct (perms !! name) as [[|[]|s|l|]|]; simpl;
    try destruct (negb _); try destruct l; simpl; split; eauto; try done;
    intros [b Hb]; discriminate.
Qed.

(** X2: [Key.__init__] succeeds exactly when the permissions are a dictionary
    whose [manage] and [write] entries can be searched; the [read] entry is
    not looked at. *)
Theorem init_succeeds_iff api_key label permissions :
  (∃ k, Key.__init__ api_key label permissions = Ok k) ↔
  (∃ perms, permissions = ODict perms ∧
            entry_ok (perms !! "manage") = true ∧ entry_ok (perms !! "write") = true).
Proof.
  destruct permissions as [v|perms]; simpl.
  - split; [intros [k Hk]; discriminate|intros (perms & Hp & _); discriminate].
  - pose proof (get_or_empty_py_in perms "manage" "*") as Hm.
    pose proof (get_or_empty_py_in perms "write" "*") as Hw.
    split.
    + intros [k Hk]. exists perms. split; [done|].
      destruct (py_in "*" (Key.get_or_empty perms "manage")) as [bm|]; [|done].
      destruct (py_in "*" (Key.get_or_empty perms "write")) as [bw|]; [|done].
      split; [apply Hm|apply Hw]; eauto.
    + intros (perms' & [= <-] & Hem & Hew).
      apply Hm in Hem as [bm ->]. apply Hw in Hew as [bw ->]. simpl. eauto.
Qed.

(** ** [Key.can] on lists of scopes *)

Lemma item_split_chr_session s : item (split_chr "." s) 0 = Ok (session_of s).
Proof.
  unfold session_of. by destruct (split_chr_cons "." s) as (x & xs & ->).
Qed.

Lemma scope_test_list l s :
  scope_test (OVal (VList l)) s =
    Ok (bool_decide (s ∈ l) || (contains "." s && bool_decide (session_of s ∈ l))).
Proof.
  unfold scope_test. destruct (contains "." s); simpl.
  - rewrite item_split_chr_session. simpl.
    destruct (bool_decide (session_of s ∈ l)); simpl;
      [by rewrite orb_true_r|].
    rewrite orb_false_r. by destruct (bool_decide (s ∈ l)).
  - rewrite orb_false_r. by destruct (bool_decide (s ∈ l)).
Qed.

Lemma can_three inherited k p s :
  p ∈ ["manage"; "write"; "read"] →
  ∃ set, Key.getattr inherited k p = Some set ∧
         Key.can inherited k p s = scope_test set s.
Proof.
  intros Hp. rewrite !elem_of_cons, elem_of_nil in Hp.
  destruct Hp as [->|[->|[->|[]]]]; eexists; (split; [reflexivity|]).
  - apply can_manage_eq.
  - apply can_write_eq.
  - apply can_read_eq.
Qed.

Lemma can_list_eq inherited k p l s :
  p ∈ ["manage"; "write"; "read"] →
  Key.getattr inherited k p = Some (OVal (VList l)) →
  Key.can inherited k p s =
    Ok (bool_decide (s ∈ l) || (contains "." s && bool_decide (session_of s ∈ l))).
Proof.
  intros Hp Hset. destruct (can_three inherited k p s Hp) as (set & Hget & ->).
  rewrite Hset in Hget. injection Hget as <-. apply scope_test_list.
Qed.

(** X3: When the set of a permission is a list of scopes, [can] is true
    exactly when the scope is in the list, or has a dot and the part
    before its first dot is in the list. *)
Theorem can_on_list inherited k p l s :
  p ∈ ["manage"; "write"; "read"] →
  Key.getattr inherited k p = Some (OVal (VList l)) →
  Key.can inherited k p s =
    Ok (bool_decide (s ∈ l) || (contains "." s && bool_decide (session_of s ∈ l))).
Proof. apply can_list_eq. Qed.

Lemma can_on_list_witness :
  Key.can no_inherited key_manage_web "manage" "web.nginx" =
    Ok (bool_decide ("web.nginx" ∈ ["web"]) ||
        (contains "." "web.nginx" && bool_decide (session_of "web.nginx" ∈ ["web"]))).
Proof.
  apply (can_on_list no_inherited key_manage_web "manage" ["web"] "web.nginx").
  - by_computation.
  - reflexivity.
Defined.

Lemma contains_dot_cons x s :
  contains "." (String x s) = Ascii.eqb x "." || contains "." s.
Proof.
  unfold contains.
  change (String.index 0 "." (String x s)) with
    (if String.prefix "." (String x s) then Some 0
     else match String.index 0 "." s with Some n => Some (S n) | None => None end).
  change (String.prefix "." (String x s)) with
    (if ascii_dec "."%char x then String.prefix "" s else false).
  destruct (ascii_dec "." x) as [<-|Hne]; [by destruct s|].
  destruct (Ascii.eqb_spec x ".") as [->|_]; [done|]. simpl.
  by destruct (String.index 0 "." s).
Qed.

Lemma contains_dot_app a b : contains "." (a ++ "." ++ b) = true.
Proof.
  induction a as [|x a IH].
  { change ("" ++ "." ++ b) with (String "." b). by rewrite contains_dot_cons. }
  change (String x a ++ "." ++ b) with (String x (a ++ "." ++ b)).
  rewrite contains_dot_cons, IH. apply orb_true_r.
Qed.

Lemma session_of_app a b :
  contains "." a = false → session_of (a ++ "." ++ b) = a.
Proof.
  unfold session_of. induction a as [|x a IH]; intros Ha; [done|].
  rewrite contains_dot_cons in Ha. apply orb_false_elim in Ha as [Hx Ha].
  change (String x a ++ "." ++ b) with (String x (a ++ "." ++ b)).
  simpl. rewrite Hx. specialize (IH Ha).
  destruct (split_chr_cons "." (a ++ "." ++ b)) as (y & ys & Hy).
  rewrite Hy in *. simpl in *. by subst.
Qed.

(** X4: A session name in the list grants the permission for every job of
    that session. *)
Theorem session_grants_every_job inherited k p l session job :
  p ∈ ["manage"; "write"; "read"] →
  Key.getattr inherited k p = Some (OVal (VList l)) →
  session ∈ l →
  contains "." session = false →
  Key.can inherited k p (session ++ "." ++ job) = Ok true.
Proof.
  intros Hp Hset Hin Hdot.
  rewrite (can_list_eq inherited k p l _ Hp Hset).
  rewrite contains_dot_app, session_of_app by done.
  rewrite (bool_decide_eq_true_2 _ Hin). by rewrite orb_true_r.
Qed.

Lemma session_grants_every_job_witness :
  Key.can no_inherited key_manage_web "manage" ("web" ++ "." ++ "apache") = Ok true.
Proof.
  apply (session_grants_every_job no_inherited key_manage_web "manage" ["web"]).
  - by_computation.
  - reflexivity.
  - by_computation.
  - reflexivity.
Defined.

(** ** The three checks on a constructed key *)

Lemma init_inv api_key label permissions k :
  Key.__init__ api_key label permissions = Ok k →
  ∃ bm bw, py_in "*" (Key.manage k) = Ok bm ∧ py_in "*" (Key.write k) = Ok bw ∧
           Key.read k = Key.write k.
Proof.
  destruct permissions as [v|perms]; simpl; [done|].
  destruct (py_in "*" (Key.get_or_empty perms "manage")) as [bm|] eqn:Hm; simpl; [|done].
  destruct (py_in "*" (Key.get_or_empty perms "write")) as [bw|] eqn:Hw; simpl; [|done].
  intros [= <-]. simpl. eauto.
Qed.

Lemma py_in_container x y c b : py_in x c = Ok b → ∃ b', py_in y c = Ok b'.
Proof. destruct c as [[]|]; simpl; intros; try done; eauto. Qed.

Lemma scope_test_container c s b :
  py_in "*" c = Ok b → ∃ b', scope_test c s = Ok b'.
Proof.
  intros Hc. unfold scope_test.
  destruct (py_in_container "*" s c b Hc) as [bs Hbs].
  destruct (py_in_container "*" (session_of s) c b Hc) as [bh Hbh].
  destruct (contains "." s); simpl.
  - rewrite item_split_chr_session. simpl. rewrite Hbh. simpl.
    destruct bh; [eauto|]. rewrite Hbs. simpl. destruct bs; eauto.
  - rewrite Hbs. simpl. destruct bs; eauto.
Qed.

(** X5: On a key that [__init__] has constructed, [can_manage], [can_write]
    and [can_read] return a boolean for every scope: the sets were
    searched once by [__init__], so the searches of [can] do not raise. *)
Theorem constructed_key_checks_return inherited api_key label permissions k s :
  Key.__init__ api_key label permissions = Ok k →
  ∃ bm bw br, Key.can_manage inherited k s = Ok bm ∧
              Key.can_write inherited k s = Ok bw ∧
              Key.can_read inherited k s = Ok br.
Proof.
  intros Hk. destruct (init_inv _ _ _ _ Hk) as (xm & xw & Hm & Hw & Hrw).
  destruct (scope_test_container (Key.manage k) s xm Hm) as [bm Hbm].
  destruct (scope_test_container (Key.write k) s xw Hw) as [bw Hbw].
  unfold Key.can_read, Key.can_write, Key.can_manage.
  rewrite can_manage_eq, can_write_eq, can_read_eq, Hrw, Hbm, Hbw. simpl.
  destruct bm; simpl; [by exists true, true, true|].
  destruct bw; simpl; [by exists false, true, true|].
  by exists false, false, false.
Qed.

Lemma constructed_key_checks_return_witness :
  ∃ bm bw br, Key.can_manage no_inherited key_manage_web "db" = Ok bm ∧
              Key.can_write no_inherited key_manage_web "db" = Ok bw ∧
              Key.can_read no_inherited key_manage_web "db" = Ok br.
Proof.
  apply (constructed_key_checks_return no_inherited (OVal (VStr "m")) (OVal (VStr ""))
           (ODict (<["manage" := VList ["web"]]> ∅))).
  reflexivity.
Defined.

(** X6: On a constructed key [can_read] and [can_write] agree on every scope,
    whatever the permissions mapping says under ['read']. *)
Theorem can_read_is_can_write inherited api_key label permissions k s :
  Key.__init__ api_key label permissions = Ok k →
  Key.can_read inherited k s = Key.can_write inherited k s.
Proof.
  intros Hk. destruct (init_inv _ _ _ _ Hk) as (xm & xw & _ & _ & Hrw).
  unfold Key.can_read, Key.can_write, Key.can_manage.
  rewrite can_manage_eq, can_write_eq, can_read_eq, Hrw.
  destruct (scope_test (Key.manage k) s) as [[]|]; simpl; try done;
    destruct (scope_test (Key.write k) s) as [[]|]; simpl; done.
Qed.

Lemma can_read_is_can_write_witness :
  Key.can_read no_inherited key_read_web "web" =
  Key.can_write no_inherited key_read_web "web".
Proof.
  apply (can_read_is_can_write no_inherited (OVal (VStr "r")) (OVal (VStr ""))
           (ODict (<["read" := VList ["web"; "*"]]> ∅))).
  reflexivity.
Defined.


(** ** [KeyManager.get_key] in full *)

(** X7: A miss on a key that has no row raises [KeyNotFound] and leaves the
    manager as it was: nothing is cached for the key. *)
Theorem get_key_missing key m keys :
  KeyManager._cache m !! key = None →
  SqliteKeyBackend.conn (KeyManager._backend m) = Some keys →
  keys !! key = None →
  KeyManager.get_key key m = (Raise KeyNotFound, m).
Proof. apply get_key_no_row. Qed.

Lemma get_key_missing_witness :
  KeyManager.get_key "nobody" family = (Raise KeyNotFound, family).
Proof.
  apply (get_key_missing "nobody" family family_keys); by_computation.
Defined.





(** ** Storing, reading and deleting *)

(** X15: On an open connection [has_key] answers from the table, not from
    the cache, and never answers true: for a key without a row it returns
    false, for a key with a row it raises the [NameError] of [_make_key],
    which [has_key] does not catch; it changes nothing. *)
Theorem has_key_never_true key m keys :
  SqliteKeyBackend.conn (KeyManager._backend m) = Some keys →
  (keys !! key = None → KeyManager.has_key key m = (Ok false, m)) ∧
  (is_Some (keys !! key) → KeyManager.has_key key m = (Raise (NameError "json"), m)) ∧
  (KeyManager.has_key key m).1 ≠ Ok true.
Proof.
  intros Hc.
  assert (KeyManager.has_key key m =
            (match keys !! key with
             | Some _ => Raise (NameError "json")
             | None => Ok false
             end, m)) as Hhas.
  { unfold KeyManager.has_key, KeyManager.on_backend.
    rewrite (backend_has_key_spec key _ keys Hc). by rewrite manager_eta. }
  rewrite Hhas. split; [by intros ->|]. split; [by intros [r ->]|].
  by destruct (keys !! key).
Qed.

Lemma has_key_never_true_witness :
  KeyManager.has_key "nobody" family = (Ok false, family) ∧
  KeyManager.has_key "root" family = (Raise (NameError "json"), family).
Proof.
  split.
  - destruct (has_key_never_true "nobody" family family_keys) as (Hnone & _).
    + by_computation.
    + apply Hnone. by_computation.
  - destruct (has_key_never_true "root" family family_keys) as (_ & Hsome & _).
    + by_computation.
    + apply Hsome. by_computation.
Defined.

(** X17: The backend's [delete_key] undoes a [set_key] that stored text
    under a fresh key. *)
Theorem backend_set_key_then_delete_key key s parent b keys :
  SqliteKeyBackend.conn b = Some keys →
  keys !! key = None →
  (SqliteKeyBackend.set_key key (SqliteKeyBackend.DataText s) parent ;;
   SqliteKeyBackend.delete_key key) b
    = (Ok tt, b).
Proof.
  intros Hconn Hrow. unfold mbind at 1. unfold M_bind.
  rewrite (backend_set_key_fresh key s parent b keys Hconn Hrow).
  unfold SqliteKeyBackend.delete_key, SqliteKeyBackend.the_conn, mbind, M_bind. simpl.
  unfold modify. rewrite delete_insert_id by done. by rewrite (backend_eta b keys).
Qed.

Lemma backend_set_key_then_delete_key_witness :
  (SqliteKeyBackend.set_key "k" (SqliteKeyBackend.DataText key_text) None ;;
   SqliteKeyBackend.delete_key "k") empty_backend = (Ok tt, empty_backend).
Proof.
  apply (backend_set_key_then_delete_key "k" key_text None empty_backend ∅);
    reflexivity.
Defined.

(** X18: After the backend's [delete_key] the key has no row, whether it had
    one or not: [has_key] is false and [get_key] raises [KeyNotFound]; the
    other keys are found as before. *)
Theorem backend_delete_key_removes key b keys :
  SqliteKeyBackend.conn b = Some keys →
  ∃ b', SqliteKeyBackend.delete_key key b = (Ok tt, b') ∧
        SqliteKeyBackend.has_key key b' = (Ok false, b') ∧
        SqliteKeyBackend.get_key key b' = (Raise KeyNotFound, b') ∧
        ∀ k, k ≠ key →
             (SqliteKeyBackend.has_key k b').1 = (SqliteKeyBackend.has_key k b).1.
Proof.
  intros Hconn. set (b' := SqliteKeyBackend.mk (Some (delete key keys))).
  exists b'. split; [|split; [|split]].
  - unfold SqliteKeyBackend.delete_key, SqliteKeyBackend.the_conn, mbind, M_bind.
    by rewrite Hconn.
  - rewrite (backend_has_key_spec key b' (delete key keys) eq_refl).
    by rewrite lookup_delete_eq.
  - apply (backend_get_key_missing key b' (delete key keys) eq_refl).
    apply lookup_delete_eq.
  - intros k Hk.
    rewrite (backend_has_key_spec k b' (delete key keys) eq_refl).
    rewrite (backend_has_key_spec k b keys Hconn). simpl.
    by rewrite lookup_delete_ne.
Qed.

Lemma backend_delete_key_removes_witness :
  ∃ b', SqliteKeyBackend.delete_key "root" family_backend = (Ok tt, b') ∧
        SqliteKeyBackend.has_key "root" b' = (Ok false, b') ∧
        SqliteKeyBackend.get_key "root" b' = (Raise KeyNotFound, b') ∧
        ∀ k, k ≠ "root" →
             (SqliteKeyBackend.has_key k b').1
               = (SqliteKeyBackend.has_key k family_backend).1.
Proof.
  apply (backend_delete_key_removes "root" family_backend family_keys).
  by_computation.
Defined.

(** ** [KeyManager._delete_entry] and [KeyManager.delete_key] *)

Lemma delete_entry_cases key m :
  (KeyManager._cache m !! key = None ∧ KeyManager._delete_entry key m = (Ok tt, m)) ∨
  (is_Some (KeyManager._cache m !! key) ∧
   ((∃ l, KeyManager.remove_first key (KeyManager._entries m) = Some l ∧
          KeyManager._delete_entry key m =
            (Ok tt, KeyManager.mk (delete key (KeyManager._cache m)) l
                      (KeyManager._backend m) (KeyManager._emitter m))) ∨
    (KeyManager.remove_first key (KeyManager._entries m) = None ∧
     KeyManager._delete_entry key m = (Raise ValueError, m)))).
Proof.
  destruct m as [cache entries backend emitter]. simpl.
  unfold KeyManager._delete_entry, mbind, M_bind, gets. simpl.
  destruct (cache !! key) as [o|] eqn:Hcache; [right|left; done].
  split; [eauto|].
  unfold KeyManager.entries_remove, mbind, M_bind, gets. simpl.
  destruct (KeyManager.remove_first key entries) as [l|] eqn:Hl; simpl.
  - left. exists l. split; [done|].
    unfold KeyManager.cache_pop, mbind, M_bind, gets. simpl. by rewrite Hcache.
  - right. done.
Qed.

(** X14: [delete_key] never returns: it raises at [self.conn], or before that
    when the key is cached but missing from [_entries]; either way no row
    is deleted and no event is published. *)
Theorem delete_key_never_returns key m :
  ∃ e, (KeyManager.delete_key key m).1 = Raise e ∧
       (e = AttributeError "conn" ∨ e = ValueError) ∧
       KeyManager._backend (KeyManager.delete_key key m).2 = KeyManager._backend m ∧
       KeyManager._emitter (KeyManager.delete_key key m).2 = KeyManager._emitter m.
Proof.
  unfold KeyManager.delete_key.
  unfold mbind, M_bind, KeyManager.self_conn, raise.
  destruct (delete_entry_cases key m) as [[_ H]|[_ [(l & _ & H)|[_ H]]]];
    rewrite H; simpl.
  - exists (AttributeError "conn"). split; [done|]. split; [by left|]. by split.
  - exists (AttributeError "conn"). split; [done|]. split; [by left|]. by split.
  - exists ValueError. split; [done|]. split; [by right|]. by split.
Qed.

Lemma remove_first_Some key l :
  key ∈ l → ∃ l', KeyManager.remove_first key l = Some l'.
Proof.
  induction l as [|x l IH]; intros Hin; [by apply elem_of_nil in Hin|].
  simpl. destruct (String.eqb_spec x key) as [->|Hne]; [by eauto|].
  apply elem_of_cons in Hin as [->|Hin]; [done|].
  destruct (IH Hin) as [l' ->]. by eauto.
Qed.

Lemma remove_first_NoDup key l l' :
  NoDup l → KeyManager.remove_first key l = Some l' →
  NoDup l' ∧ ∀ k, k ∈ l' ↔ (k ∈ l ∧ k ≠ key).
Proof.
  revert l'. induction l as [|x l IH]; intros l' Hnd Hrm; [done|].
  apply NoDup_cons in Hnd as [Hx Hnd]. simpl in Hrm.
  destruct (String.eqb_spec x key) as [->|Hne].
  - injection Hrm as <-. split; [done|]. intros k. rewrite elem_of_cons.
    split; [intros Hk; split; [by right|by intros ->]|by intros [[->|?] ?]].
  - destruct (KeyManager.remove_first key l) as [l0|] eqn:Hl0; [|done].
    simpl in Hrm. injection Hrm as <-.
    destruct (IH l0 Hnd eq_refl) as [Hnd0 Hin0]. split.
    + apply NoDup_cons. split; [|done]. rewrite Hin0. by intros [? _].
    + intros k. rewrite !elem_of_cons, Hin0.
      split; [intros [->|[? ?]]; by auto|intros [[->|?] ?]; by auto].
Qed.

(** The bookkeeping in a form that can be computed. *)
Lemma cache_inv_from_dom m :
  NoDup (KeyManager._entries m) →
  list_to_set (KeyManager._entries m) = dom (KeyManager._cache m) →
  cache_inv m.
Proof.
  intros Hnd Hdom. split; [done|]. intros k.
  rewrite <- elem_of_dom, <- Hdom. by rewrite elem_of_list_to_set.
Qed.

(** X13: When [_entries] lists the cached keys, each once, [_delete_entry]
    returns, the key is no longer cached, the other cached keys stay, and
    [_entries] again lists the cached keys, each once. *)
Theorem delete_entry_keeps_bookkeeping key m :
  cache_inv m →
  ∃ m', KeyManager._delete_entry key m = (Ok tt, m') ∧
        KeyManager._cache m' = delete key (KeyManager._cache m) ∧
        KeyManager._backend m' = KeyManager._backend m ∧
        cache_inv m'.
Proof.
  intros [Hnd Hin].
  destruct (delete_entry_cases key m) as [[Hc ->]|[Hc Hcases]].
  - exists m. split; [done|]. split; [by rewrite delete_id|].
    split; [done|]. exact (conj Hnd Hin).
  - apply Hin in Hc as Hentry.
    destruct (remove_first_Some key _ Hentry) as [l Hl].
    destruct Hcases as [(l0 & Hl0 & ->)|[Hnone _]]; [|congruence].
    rewrite Hl in Hl0. injection Hl0 as <-.
    eexists. split; [done|]. simpl. split; [done|]. split; [done|].
    destruct (remove_first_NoDup key _ l Hnd Hl) as [Hndl Hinl].
    split; simpl; [done|]. intros k.
    rewrite Hinl, Hin, lookup_delete_is_Some. intuition congruence.
Qed.

Lemma delete_entry_keeps_bookkeeping_witness :
  ∃ m', KeyManager._delete_entry "child1" cached_family = (Ok tt, m') ∧
        KeyManager._cache m' = delete "child1" (KeyManager._cache cached_family) ∧
        KeyManager._backend m' = KeyManager._backend cached_family ∧
        cache_inv m'.
Proof.
  apply (delete_entry_keeps_bookkeeping "child1" cached_family).
  apply cache_inv_from_dom; by_computation.
Defined.

(** ** More on [get_config] *)

Section GetConfigMore.

Variable to_int : string → result Z.
Variable to_boolean : string → result bool.
Variable tempdir : string.

(** The loop over the items of an endpoint section, on any list of items:
    once [kwargs] is an integer it stays one, or the loop raises; so a list
    with a [backlog] item ends with an integer, which the statements after
    the loop subscript, or raises. *)
Lemma endpoint_item_int cfg section kwargs kv h :
  is_int kwargs →
  loop_post is_int (Gafferd.endpoint_item to_int cfg section kwargs kv h).
Proof.
  intros Hint. destruct kwargs as [d|z]; [done|].
  destruct kv as [key val]. unfold Gafferd.endpoint_item, loop_post.
  destruct (String.eqb key "bind"); [done|].
  destruct (String.eqb key "backlog").
  { unfold mbind, M_bind, lift. destruct (Gafferd.getint _ _ _ _ _); simpl; done. }
  destruct (String.eqb key "certfile" || String.eqb key "keyfile"); done.
Qed.

Lemma endpoint_items_backlog cfg section items :
  "backlog" ∈ items.*1 →
  ∀ kwargs h,
    loop_post is_int (for_fold items kwargs (Gafferd.endpoint_item to_int cfg section) h).
Proof.
  induction items as [|[key val] items IH]; intros Hin kwargs h;
    [by apply elem_of_nil in Hin|].
  simpl in Hin. apply elem_of_cons in Hin as [Hkey|Hin].
  - subst key. simpl. unfold mbind, M_bind, lift.
    destruct (Gafferd.getint _ _ _ _ _) as [z|e]; simpl; [|exact I].
    apply for_fold_post; [|done]. intros. by apply endpoint_item_int.
  - cbn [for_fold]. unfold mbind, M_bind.
    destruct (Gafferd.endpoint_item _ _ _ _ _ _) as [[kwargs'|e] h']; [|exact I].
    by apply IH.
Qed.

(** X19: [get_config] never returns: on every configuration it raises
    [TypeError] and leaves the dictionaries of the defaults as they
    were. *)
Theorem get_config_never_returns cfg h :
  Gafferd.get_config to_int to_boolean tempdir cfg h = (Raise TypeError, h).
Proof. apply get_config_raises. Qed.


End GetConfigMore.

